(** * pulse-bybit: a shallow embedding of [pulse_bybit/adapter.py]

    The Bybit V5 adapter translates PULSE protocol messages into Bybit REST
    calls.  This development embeds the request builders, the action table,
    [call_api], the two signing routines (with HMAC-SHA256 and hexdigest
    written out) and [disconnect], and proves the adapter's contract about
    them.

    Modelling conventions.
    - A Python value coming from a PULSE parameter mapping or from a parsed
      JSON body is a [json] value; a Python [dict] is an association list in
      insertion order ([dict]), looked up with [dict_get] ([dict.get]).
    - Python [str] is modelled by [string] over ASCII text; its UTF-8
      encoding is then the list of character codes.  [str.upper] is the
      ASCII upper-casing [upper].
    - Numbers are integers ([JInt]); floating point is not modelled.
    - A Python call that may raise returns [res A]: either [Ok a] or
      [Raise e] for an exception [e]. *)

From Stdlib Require Import String Ascii ZArith List Lia Bool.
From Stdlib Require Import Numbers.DecimalString Sorting.Sorted Sorting.Permutation.
Import ListNotations.
Open Scope string_scope.
Set Warnings "-register-all".

(** ** Python values *)

Inductive json : Type :=
| JNull
| JBool (b : bool)
| JInt (z : Z)
| JStr (s : string)
| JArr (l : list json)
| JObj (kvs : list (string * json)).

Definition dict := list (string * json).

(** [d.get(k)]: the value stored under [k], if any. *)
Fixpoint dict_get (k : string) (d : dict) : option json :=
  match d with
  | [] => None
  | (k', v) :: d' => if String.eqb k k' then Some v else dict_get k d'
  end.

(** [d.get(k, default)] *)
Definition dict_get_default (k : string) (d : dict) (default : json) : json :=
  match dict_get k d with Some v => v | None => default end.

(** [d[k] = v]: replaces in place when [k] is present, appends otherwise. *)
Fixpoint dict_set (k : string) (v : json) (d : dict) : dict :=
  match d with
  | [] => [(k, v)]
  | (k', v') :: d' =>
      if String.eqb k k' then (k', v) :: d' else (k', v') :: dict_set k v d'
  end.

(** Exceptions that can be raised along the adapter's paths.
    [ConnectionError] stands for [requests.ConnectionError] and the builtin
    [ConnectionError] (including [requests.ConnectTimeout], which is a
    subclass of both), [TimeoutError] for the other [requests.Timeout]s and
    the builtin [TimeoutError]. *)
Inductive exc : Type :=
| AdapterError (msg : string)
| AdapterConnectionError (msg : string)
| ConnectionError (msg : string)
| TimeoutError (msg : string)
| AttributeError (msg : string)
| KeyError (msg : string)
| OtherError (msg : string).

Inductive res (A : Type) : Type :=
| Ok (a : A)
| Raise (e : exc).
Arguments Ok {A} a.
Arguments Raise {A} e.

Definition bind {A B} (m : res A) (f : A -> res B) : res B :=
  match m with Ok a => f a | Raise e => Raise e end.

Notation "'let*' x := m 'in' k" := (bind m (fun x => k))
  (at level 200, x name, m at level 100, k at level 200).

(** ** Strings *)

Definition upper_ascii (c : ascii) : ascii :=
  let n := nat_of_ascii c in
  if (97 <=? n)%nat && (n <=? 122)%nat then ascii_of_nat (n - 32) else c.

(** [str.upper()] on ASCII text. *)
Fixpoint upper (s : string) : string :=
  match s with
  | EmptyString => EmptyString
  | String c s' => String (upper_ascii c) (upper s')
  end.

(** ["sep".join(l)] *)
Fixpoint join (sep : string) (l : list string) : string :=
  match l with
  | [] => EmptyString
  | [x] => x
  | x :: l' => x ++ sep ++ join sep l'
  end.

(** [str(n)] for a Python [int]. *)
Definition py_int_str (z : Z) : string := NilEmpty.string_of_int (Z.to_int z).

Definition hex_digit (n : nat) : ascii :=
  ascii_of_nat (if (n <? 10)%nat then 48 + n else 87 + n).

(** [t] occurs in [s]. *)
Definition substr (t s : string) : Prop := exists a b, s = a ++ t ++ b.

Fixpoint prefixb (t s : string) : bool :=
  match t, s with
  | EmptyString, _ => true
  | String c t', String d s' => Ascii.eqb c d && prefixb t' s'
  | String _ _, EmptyString => false
  end.

Fixpoint substrb (t s : string) : bool :=
  prefixb t s || match s with EmptyString => false | String _ s' => substrb t s' end.

(** ** [str()], [repr()] and Python truthiness *)

(** The body of [repr(s)] between its quotes: backslash, the chosen quote
    and non-printable characters are escaped. *)
Fixpoint repr_chars (q : ascii) (s : string) : string :=
  match s with
  | EmptyString => EmptyString
  | String c s' =>
      let n := nat_of_ascii c in
      let esc :=
        if Ascii.eqb c "\" then "\\"
        else if Ascii.eqb c q then String "\" (String q EmptyString)
        else if (n =? 10)%nat then "\n"
        else if (n =? 13)%nat then "\r"
        else if (n =? 9)%nat then "\t"
        else if (n <? 32)%nat || (126 <? n)%nat then
          String "\" (String "x" (String (hex_digit (n / 16)) (String (hex_digit (n mod 16)) EmptyString)))
        else String c EmptyString in
      esc ++ repr_chars q s'
  end.

Definition has_char (c : ascii) (s : string) : bool :=
  substrb (String c EmptyString) s.

(** [repr(s)]: single quotes, unless [s] holds a single quote and no double
    quote. *)
Definition repr_str (s : string) : string :=
  let dq := ascii_of_nat 34 in
  let q := if has_char "'" s && negb (has_char dq s) then dq else "'"%char in
  String q (repr_chars q s ++ String q EmptyString).

Fixpoint py_repr (v : json) : string :=
  match v with
  | JNull => "None"
  | JBool true => "True"
  | JBool false => "False"
  | JInt z => py_int_str z
  | JStr s => repr_str s
  | JArr l => "[" ++ join ", " (map py_repr l) ++ "]"
  | JObj kvs =>
      "{" ++ join ", " (map (fun '(k, x) => repr_str k ++ ": " ++ py_repr x) kvs) ++ "}"
  end.

(** [str(v)] *)
Definition py_str (v : json) : string :=
  match v with JStr s => s | _ => py_repr v end.

Definition py_type_name (v : json) : string :=
  match v with
  | JNull => "NoneType" | JBool _ => "bool" | JInt _ => "int"
  | JStr _ => "str" | JArr _ => "list" | JObj _ => "dict"
  end.

Definition no_attribute (v : json) (attr : string) : exc :=
  AttributeError ("'" ++ py_type_name v ++ "' object has no attribute '" ++ attr ++ "'").

(** [d[k]] *)
Definition dict_index (k : string) (d : dict) : res json :=
  match dict_get k d with Some v => Ok v | None => Raise (KeyError (repr_str k)) end.

(** [v.get(k, default)] on a value that must be a dict. *)
Definition py_get (v : json) (k : string) (default : json) : res json :=
  match v with
  | JObj kvs => Ok (dict_get_default k kvs default)
  | _ => Raise (no_attribute v "get")
  end.

(** [v.upper()] *)
Definition py_upper (v : json) : res string :=
  match v with JStr s => Ok (upper s) | _ => Raise (no_attribute v "upper") end.

(** [bool(v)] *)
Definition py_truthy (v : json) : bool :=
  match v with
  | JNull => false
  | JBool b => b
  | JInt z => negb (Z.eqb z 0)
  | JStr s => negb (String.eqb s EmptyString)
  | JArr l => negb (Nat.eqb (length l) 0)
  | JObj kvs => negb (Nat.eqb (length kvs) 0)
  end.

(** [v == z] for an integer literal [z] ([True == 1], [False == 0]). *)
Definition py_eq_int (v : json) (z : Z) : bool :=
  match v with
  | JBool b => Z.eqb (if b then 1 else 0)%Z z
  | JInt n => Z.eqb n z
  | _ => false
  end.

(** [v == s] for a string literal [s]. *)
Definition py_eq_str (v : json) (s : string) : bool :=
  match v with JStr t => String.eqb t s | _ => false end.

Example py_int_str_ex : py_int_str 0 = "0" /\ py_int_str 1700000000123 = "1700000000123"
  /\ py_int_str (-42) = "-42".
Proof. vm_compute. auto. Qed.

Example py_repr_ex : py_repr (JArr [JStr "a"; JStr "b\c"; JInt 3; JNull]) = "['a', 'b\\c', 3, None]".
Proof. vm_compute. reflexivity. Qed.

(** ** SHA-256 and HMAC, as computed by [hashlib] and [hmac]

    Bytes are integers in [0, 256); 32-bit words are integers in [0, 2^32)
    with their wrap-around written out by [w32]. *)

Definition w32 (x : Z) : Z := Z.land x (Z.ones 32).
Definition add32 (a b : Z) : Z := w32 (a + b).
Definition rotr (x n : Z) : Z := w32 (Z.lor (Z.shiftr x n) (Z.shiftl x (32 - n))).
Definition sha_ch (x y z : Z) : Z := Z.lxor (Z.land x y) (Z.land (Z.lxor x (Z.ones 32)) z).
Definition sha_maj (x y z : Z) : Z := Z.lxor (Z.lxor (Z.land x y) (Z.land x z)) (Z.land y z).
Definition bsig0 (x : Z) : Z := Z.lxor (Z.lxor (rotr x 2) (rotr x 13)) (rotr x 22).
Definition bsig1 (x : Z) : Z := Z.lxor (Z.lxor (rotr x 6) (rotr x 11)) (rotr x 25).
Definition ssig0 (x : Z) : Z := Z.lxor (Z.lxor (rotr x 7) (rotr x 18)) (Z.shiftr x 3).
Definition ssig1 (x : Z) : Z := Z.lxor (Z.lxor (rotr x 17) (rotr x 19)) (Z.shiftr x 10).

(** The round constants (first 32 bits of the fractional parts of the cube
    roots of the first 64 primes), in decimal. *)
Definition sha_K : list Z :=
  [1116352408; 1899447441; 3049323471; 3921009573; 961987163; 1508970993;
   2453635748; 2870763221; 3624381080; 310598401; 607225278; 1426881987;
   1925078388; 2162078206; 2614888103; 3248222580; 3835390401; 4022224774;
   264347078; 604807628; 770255983; 1249150122; 1555081692; 1996064986;
   2554220882; 2821834349; 2952996808; 3210313671; 3336571891; 3584528711;
   113926993; 338241895; 666307205; 773529912; 1294757372; 1396182291;
   1695183700; 1986661051; 2177026350; 2456956037; 2730485921; 2820302411;
   3259730800; 3345764771; 3516065817; 3600352804; 4094571909; 275423344;
   430227734; 506948616; 659060556; 883997877; 958139571; 1322822218;
   1537002063; 1747873779; 1955562222; 2024104815; 2227730452; 2361852424;
   2428436474; 2756734187; 3204031479; 3329325298]%Z.

(** The eight working variables / chaining value. *)
Record hstate := HS { ha : Z; hb : Z; hc : Z; hd : Z; he : Z; hf : Z; hg : Z; hh : Z }.

Definition sha_H0 : hstate :=
  HS 1779033703 3144134277 1013904242 2773480762
     1359893119 2600822924 528734635 1541459225.

(** Big-endian words of a byte list (a multiple of 4 bytes long). *)
Fixpoint be_words (l : list Z) : list Z :=
  match l with
  | a :: b :: c :: d :: l' => (a * 2^24 + b * 2^16 + c * 2^8 + d)%Z :: be_words l'
  | _ => []
  end.

Definition word_bytes (w : Z) : list Z :=
  [Z.land (Z.shiftr w 24) 255; Z.land (Z.shiftr w 16) 255; Z.land (Z.shiftr w 8) 255; Z.land w 255].

(** Message schedule extension; [w] holds the words computed so far, the
    most recent first. *)
Fixpoint sched_ext (n : nat) (w : list Z) : list Z :=
  match n with
  | O => w
  | S n' =>
      let t := add32 (add32 (ssig1 (nth 1 w 0%Z)) (nth 6 w 0%Z))
                     (add32 (ssig0 (nth 14 w 0%Z)) (nth 15 w 0%Z)) in
      sched_ext n' (t :: w)
  end.

Definition schedule (block : list Z) : list Z :=
  rev (sched_ext 48 (rev (be_words block))).

Definition sha_round (s : hstate) (kw : Z * Z) : hstate :=
  let '(k, w) := kw in
  let t1 := add32 (add32 (add32 (hh s) (bsig1 (he s))) (sha_ch (he s) (hf s) (hg s))) (add32 k w) in
  let t2 := add32 (bsig0 (ha s)) (sha_maj (ha s) (hb s) (hc s)) in
  HS (add32 t1 t2) (ha s) (hb s) (hc s) (add32 (hd s) t1) (he s) (hf s) (hg s).

Definition compress (h : hstate) (block : list Z) : hstate :=
  let s := fold_left sha_round (combine sha_K (schedule block)) h in
  HS (add32 (ha h) (ha s)) (add32 (hb h) (hb s)) (add32 (hc h) (hc s)) (add32 (hd h) (hd s))
     (add32 (he h) (he s)) (add32 (hf h) (hf s)) (add32 (hg h) (hg s)) (add32 (hh h) (hh s)).

(** Padding: [0x80], zeros, then the bit length as 8 big-endian bytes. *)
Definition sha_pad (msg : list Z) : list Z :=
  let len := Z.of_nat (length msg) in
  let k := Z.to_nat ((55 - len) mod 64) in
  (msg ++ [128%Z] ++ repeat 0%Z k
      ++ word_bytes (Z.shiftr (8 * len) 32) ++ word_bytes (w32 (8 * len)))%list.

(** 64-byte blocks ([fuel] bounds the number of blocks). *)
Fixpoint blocks (fuel : nat) (l : list Z) : list (list Z) :=
  match fuel with
  | O => []
  | S fuel' =>
      match l with
      | [] => []
      | _ => firstn 64 l :: blocks fuel' (skipn 64 l)
      end
  end.

Definition state_bytes (h : hstate) : list Z :=
  (word_bytes (ha h) ++ word_bytes (hb h) ++ word_bytes (hc h) ++ word_bytes (hd h)
  ++ word_bytes (he h) ++ word_bytes (hf h) ++ word_bytes (hg h) ++ word_bytes (hh h))%list.

(** [hashlib.sha256(msg).digest()] *)
Definition sha256 (msg : list Z) : list Z :=
  let p := sha_pad msg in
  state_bytes (fold_left compress (blocks (length p) p) sha_H0).

(** [hmac.new(key, msg, hashlib.sha256).digest()] (block size 64). *)
Definition hmac_sha256 (key msg : list Z) : list Z :=
  let key1 := if (64 <? List.length key)%nat then sha256 key else key in
  let key2 := (key1 ++ repeat 0%Z (64 - List.length key1))%list in
  let ipad := map (fun b => Z.lxor b 0x36) key2 in
  let opad := map (fun b => Z.lxor b 0x5c) key2 in
  sha256 (opad ++ sha256 (ipad ++ msg))%list.

(** [.hexdigest()]: two lowercase hex digits per byte. *)
Fixpoint hexdigest (bs : list Z) : string :=
  match bs with
  | [] => EmptyString
  | b :: bs' =>
      String (hex_digit (Z.to_nat (b / 16))) (String (hex_digit (Z.to_nat (b mod 16))) (hexdigest bs'))
  end.

(** [s.encode("utf-8")] for ASCII text. *)
Definition utf8 (s : string) : list Z :=
  map (fun c => Z.of_nat (nat_of_ascii c)) (list_ascii_of_string s).

Example sha256_abc :
  hexdigest (sha256 (utf8 "abc"))
  = "ba7816bf8f01cfea414140de5dae2223b00361a396177a9cb410ff61f20015ad".
Proof. vm_compute. reflexivity. Qed.

Example hmac_sha256_fox :
  hexdigest (hmac_sha256 (utf8 "key") (utf8 "The quick brown fox jumps over the lazy dog"))
  = "f7bc83f430538424b13298e6aa6fb143ef4d59a14946175997479dbc2d1a3cd8".
Proof. vm_compute. reflexivity. Qed.

(** ** [json.dumps] with its default arguments

    Default separators are [", "] and [": "]; with [ensure_ascii=True]
    every character outside the printable ASCII range is written [\u00XX]. *)

Definition dq : ascii := ascii_of_nat 34.

Fixpoint json_escape (s : string) : string :=
  match s with
  | EmptyString => EmptyString
  | String c s' =>
      let n := nat_of_ascii c in
      let esc :=
        if Ascii.eqb c "\" then "\\"
        else if Ascii.eqb c dq then String "\" (String dq EmptyString)
        else if (n =? 10)%nat then "\n"
        else if (n =? 13)%nat then "\r"
        else if (n =? 9)%nat then "\t"
        else if (n =? 8)%nat then "\b"
        else if (n =? 12)%nat then "\f"
        else if (n <? 32)%nat || (126 <? n)%nat then
          "\u00" ++ String (hex_digit (n / 16)) (String (hex_digit (n mod 16)) EmptyString)
        else String c EmptyString in
      esc ++ json_escape s'
  end.

Definition json_quote (s : string) : string :=
  String dq (json_escape s ++ String dq EmptyString).

(** [json.dumps(v)] *)
Fixpoint json_dumps (v : json) : string :=
  match v with
  | JNull => "null"
  | JBool true => "true"
  | JBool false => "false"
  | JInt z => py_int_str z
  | JStr s => json_quote s
  | JArr l => "[" ++ join ", " (map json_dumps l) ++ "]"
  | JObj kvs =>
      "{" ++ join ", " (map (fun '(k, x) => json_quote k ++ ": " ++ json_dumps x) kvs) ++ "}"
  end.

(** ** [sorted(params.items())]

    Python compares strings by code point.  The items of a dict have
    distinct keys, so comparing [(key, value)] pairs is decided by the keys
    and values are never compared; [sorted] is stable. *)

Fixpoint str_ltb (a b : string) : bool :=
  match a, b with
  | EmptyString, EmptyString => false
  | EmptyString, String _ _ => true
  | String _ _, EmptyString => false
  | String c a', String d b' =>
      let n := nat_of_ascii c in
      let m := nat_of_ascii d in
      if (n <? m)%nat then true else if (m <? n)%nat then false else str_ltb a' b'
  end.

Fixpoint insert_item (x : string * json) (l : dict) : dict :=
  match l with
  | [] => [x]
  | y :: l' => if str_ltb (fst x) (fst y) then x :: l else y :: insert_item x l'
  end.

Definition sorted_items (d : dict) : dict :=
  fold_left (fun acc x => insert_item x acc) d [].

(** ** Adapter state

    [BybitAdapter.__init__] stores the credentials, the base URL, the
    receive window ["20000"] and the clock offset; [PulseAdapter] holds
    [connected].  A [requests.Session] is named by a number; [closed]
    records the sessions [close()] was called on, and [next_session] names
    the next [requests.Session()] to be created. *)
Record adapter := mk_adapter {
  api_key : option string;
  api_secret : option string;
  base_url : string;
  recv_window : string;
  time_offset : Z;
  session : option nat;
  connected : bool;
  closed : list nat;
  next_session : nat
}.

Definition BASE_URL : string := "https://api.bybit.com".
Definition TESTNET_URL : string := "https://api-testnet.bybit.com".

(** [BybitAdapter(api_key, api_secret, testnet)] *)
Definition new_adapter (key secret : option string) (testnet : bool) : adapter :=
  mk_adapter key secret (if testnet then TESTNET_URL else BASE_URL) "20000" 0 None false [] 0.

Definition headers := list (string * string).

Definition credentials_error : exc :=
  AdapterError "API key and secret required for signed requests.".

(** [if not self._api_key or not self._api_secret: raise ...]; otherwise the
    key and the secret. *)
Definition check_credentials (a : adapter) : res (string * string) :=
  match api_key a, api_secret a with
  | Some k, Some s =>
      if String.eqb k EmptyString || String.eqb s EmptyString then Raise credentials_error else Ok (k, s)
  | _, _ => Raise credentials_error
  end.

(** [str(int(time.time() * 1000) + self._time_offset)], with [now_ms] the
    first summand. *)
Definition timestamp (a : adapter) (now_ms : Z) : string :=
  py_int_str (now_ms + time_offset a).

Definition signature (secret sign_str : string) : string :=
  hexdigest (hmac_sha256 (utf8 secret) (utf8 sign_str)).

(** [_sign_get] *)
Definition _sign_get (a : adapter) (now_ms : Z) (params : dict) : res headers :=
  let* ks := check_credentials a in
  let '(k, s) := ks in
  let ts := timestamp a now_ms in
  let param_str := join "&" (map (fun '(k, v) => k ++ "=" ++ py_str v) (sorted_items params)) in
  let sign_str := ts ++ k ++ recv_window a ++ param_str in
  Ok [("X-BAPI-API-KEY", k); ("X-BAPI-SIGN", signature s sign_str);
      ("X-BAPI-TIMESTAMP", ts); ("X-BAPI-RECV-WINDOW", recv_window a)].

(** [_sign_post] *)
Definition _sign_post (a : adapter) (now_ms : Z) (params : dict) : res headers :=
  let* ks := check_credentials a in
  let '(k, s) := ks in
  let ts := timestamp a now_ms in
  let param_str := json_dumps (JObj params) in
  let sign_str := ts ++ k ++ recv_window a ++ param_str in
  Ok [("X-BAPI-API-KEY", k); ("X-BAPI-SIGN", signature s sign_str);
      ("X-BAPI-TIMESTAMP", ts); ("X-BAPI-RECV-WINDOW", recv_window a);
      ("Content-Type", "application/json")].

Example json_dumps_ex :
  json_dumps (JObj [("a", JStr "b"); ("c", JArr [JInt 1; JBool true; JNull])])
  = "{" ++ String dq "a" ++ String dq ": " ++ String dq "b" ++ String dq ", " ++ String dq "c"
    ++ String dq ": [1, true, null]}".
Proof. vm_compute. reflexivity. Qed.

(** ** Native request descriptors and the request builders *)

Record native_request := mk_req {
  method : string;
  endpoint : string;
  params : dict;
  signed : bool
}.

(** [ENDPOINTS] *)
Definition EP_tickers := "/v5/market/tickers".
Definition EP_kline := "/v5/market/kline".
Definition EP_orderbook := "/v5/market/orderbook".
Definition EP_server_time := "/v5/market/time".
Definition EP_place_order := "/v5/order/create".
Definition EP_cancel_order := "/v5/order/cancel".
Definition EP_order_detail := "/v5/order/realtime".
Definition EP_open_orders := "/v5/order/realtime".
Definition EP_wallet_balance := "/v5/account/wallet-balance".

(** [_build_query_request] *)
Definition _build_query_request (params : dict) : res native_request :=
  let symbol := dict_get_default "symbol" params JNull in
  let query_type := dict_get_default "type" params (JStr "price") in
  let category := dict_get_default "category" params (JStr "spot") in
  if py_eq_str query_type "price" || py_eq_str query_type "24h" then
    let req_params := [("category", category)] in
    let* req_params :=
      if py_truthy symbol then
        let* u := py_upper symbol in Ok (dict_set "symbol" (JStr u) req_params)
      else Ok req_params in
    Ok (mk_req "GET" EP_tickers req_params false)
  else if py_eq_str query_type "klines" then
    if negb (py_truthy symbol) then Raise (AdapterError "Symbol required for klines query.")
    else
      let* u := py_upper symbol in
      Ok (mk_req "GET" EP_kline
            [("category", category); ("symbol", JStr u);
             ("interval", dict_get_default "interval" params (JStr "60"));
             ("limit", dict_get_default "limit" params (JInt 100))] false)
  else if py_eq_str query_type "depth" then
    if negb (py_truthy symbol) then Raise (AdapterError "Symbol required for depth query.")
    else
      let* u := py_upper symbol in
      Ok (mk_req "GET" EP_orderbook
            [("category", category); ("symbol", JStr u);
             ("limit", dict_get_default "limit" params (JInt 20))] false)
  else
    Raise (AdapterError ("Unknown query type '" ++ py_str query_type
                         ++ "'. Use: price, 24h, klines, depth.")).

(** [for field in required: if field not in params: raise ...] *)
Fixpoint check_required (required : list string) (params : dict) : res unit :=
  match required with
  | [] => Ok tt
  | field :: rest =>
      match dict_get field params with
      | None => Raise (AdapterError ("Missing required field '" ++ field ++ "' for order placement."))
      | Some _ => check_required rest params
      end
  end.

Definition order_required : list string := ["symbol"; "side"; "quantity"].

(** [_build_order_request]; the dict literal [order_params] is evaluated
    entry by entry, left to right. *)
Definition _build_order_request (params : dict) : res native_request :=
  let* _ := check_required order_required params in
  let category := dict_get_default "category" params (JStr "spot") in
  let* sym := dict_index "symbol" params in
  let* usym := py_upper sym in
  let* side := dict_index "side" params in
  let* uside := py_upper side in
  let order_type := dict_get_default "order_type" params (JStr "Market") in
  let* qty := dict_index "quantity" params in
  let order_params :=
    [("category", category); ("symbol", JStr usym);
     ("side", JStr (if String.eqb uside "BUY" then "Buy" else "Sell"));
     ("orderType", order_type); ("qty", JStr (py_str qty))] in
  let* ot := dict_index "orderType" order_params in
  let* uot := py_upper ot in
  if String.eqb uot "LIMIT" then
    match dict_get "price" params with
    | None => Raise (AdapterError "Price required for LIMIT orders.")
    | Some price =>
        let order_params := dict_set "orderType" (JStr "Limit") order_params in
        let order_params := dict_set "price" (JStr (py_str price)) order_params in
        let order_params :=
          dict_set "timeInForce" (dict_get_default "time_in_force" params (JStr "GTC")) order_params in
        Ok (mk_req "POST" EP_place_order order_params true)
    end
  else Ok (mk_req "POST" EP_place_order order_params true).

(** [_build_cancel_request] *)
Definition _build_cancel_request (params : dict) : res native_request :=
  match dict_get "symbol" params, dict_get "order_id" params with
  | None, _ => Raise (AdapterError "Symbol required for order cancellation.")
  | Some _, None => Raise (AdapterError "Order ID required for cancellation.")
  | Some sym, Some oid =>
      let category := dict_get_default "category" params (JStr "spot") in
      let* usym := py_upper sym in
      Ok (mk_req "POST" EP_cancel_order
            [("category", category); ("symbol", JStr usym); ("orderId", JStr (py_str oid))] true)
  end.

(** [_build_status_request] *)
Definition _build_status_request (params : dict) : res native_request :=
  match dict_get "symbol" params, dict_get "order_id" params with
  | None, _ => Raise (AdapterError "Symbol required for order status query.")
  | Some _, None => Raise (AdapterError "Order ID required for status query.")
  | Some sym, Some oid =>
      let category := dict_get_default "category" params (JStr "spot") in
      let* usym := py_upper sym in
      Ok (mk_req "GET" EP_order_detail
            [("category", category); ("symbol", JStr usym); ("orderId", JStr (py_str oid))] true)
  end.

(** [_build_open_orders_request] *)
Definition _build_open_orders_request (params : dict) : res native_request :=
  let req_params := [("category", dict_get_default "category" params (JStr "spot"))] in
  let* req_params :=
    match dict_get "symbol" params with
    | Some sym => let* usym := py_upper sym in Ok (dict_set "symbol" (JStr usym) req_params)
    | None => Ok req_params
    end in
  Ok (mk_req "GET" EP_open_orders req_params true).

(** [_build_balance_request] *)
Definition _build_balance_request (params : dict) : res native_request :=
  Ok (mk_req "GET" EP_wallet_balance
        [("accountType", dict_get_default "account_type" params (JStr "UNIFIED"))] true).

(** ** Action table and [to_native] *)

Definition ACTION_MAP : list (string * string) :=
  [("ACT.QUERY.DATA", "query");
   ("ACT.QUERY.STATUS", "order_status");
   ("ACT.TRANSACT.REQUEST", "place_order");
   ("ACT.CANCEL", "cancel_order");
   ("ACT.QUERY.LIST", "open_orders");
   ("ACT.QUERY.BALANCE", "wallet_balance")].

Fixpoint assoc_get (k : string) (l : list (string * string)) : option string :=
  match l with
  | [] => None
  | (k', v) :: l' => if String.eqb k k' then Some v else assoc_get k l'
  end.

(** [supported_actions]: [list(ACTION_MAP.keys())] *)
Definition supported_actions : list string := map fst ACTION_MAP.

(** [to_native] on a message with the given action and parameters. *)
Definition to_native (action : string) (params : dict) : res native_request :=
  match assoc_get action ACTION_MAP with
  | None | Some EmptyString =>
      Raise (AdapterError ("Unsupported action '" ++ action ++ "'. Supported: "
                           ++ py_str (JArr (map JStr supported_actions))))
  | Some operation =>
      if String.eqb operation "query" then _build_query_request params
      else if String.eqb operation "place_order" then _build_order_request params
      else if String.eqb operation "cancel_order" then _build_cancel_request params
      else if String.eqb operation "order_status" then _build_status_request params
      else if String.eqb operation "open_orders" then _build_open_orders_request params
      else if String.eqb operation "wallet_balance" then _build_balance_request params
      else Raise (AdapterError ("Unknown operation: " ++ operation))
  end.

(** ** [call_api]

    The HTTP session is an explicit transport [send]: given the request the
    adapter issues it returns the response or raises [ConnectionError],
    [TimeoutError] or some other exception; a response's [resp_json] is the
    outcome of [resp.json()].  [call_api] also returns the list of requests
    it handed to the session. *)

Record http_call := mk_call {
  call_method : string;
  call_url : string;
  call_params : dict;
  call_headers : headers
}.

Record response := mk_response { resp_json : res json }.

(** [_ensure_session] *)
Definition _ensure_session (a : adapter) : adapter :=
  match session a with
  | Some _ => a
  | None =>
      mk_adapter (api_key a) (api_secret a) (base_url a) (recv_window a) (time_offset a)
                 (Some (next_session a)) (connected a) (closed a) (S (next_session a))
  end.

(** The part of the [try] block up to the session call: the method dispatch
    and the signing headers. *)
Definition prepare_call (a : adapter) (now_ms : Z) (req : native_request) : res http_call :=
  let url := base_url a ++ endpoint req in
  let p := params req in
  if String.eqb (method req) "GET" then
    let* hdrs := if signed req then _sign_get a now_ms p else Ok [] in
    Ok (mk_call "GET" url p hdrs)
  else if String.eqb (method req) "POST" then
    let* hdrs :=
      if signed req then _sign_post a now_ms p else Ok [("Content-Type", "application/json")] in
    Ok (mk_call "POST" url p hdrs)
  else Raise (AdapterError ("Unknown HTTP method: " ++ method req)).

(** The rest of the [try] block, from [resp.json()] on. *)
Definition handle_response (resp : response) : res json :=
  let* data := resp_json resp in
  let* ret_code := py_get data "retCode" (JInt 0) in
  if negb (py_eq_int ret_code 0) then
    let* ret_msg := py_get data "retMsg" (JStr "Unknown error") in
    Raise (AdapterError ("Bybit error " ++ py_str ret_code ++ ": " ++ py_str ret_msg))
  else py_get data "result" data.

(** The [except] clauses, in order.  [AdapterConnectionError] is not raised
    inside the [try] block. *)
Definition call_api_except (e : exc) : exc :=
  match e with
  | ConnectionError m => AdapterConnectionError ("Cannot reach Bybit: " ++ m)
  | TimeoutError m => AdapterConnectionError ("Bybit request timed out: " ++ m)
  | AdapterError m => AdapterError m
  | AdapterConnectionError m => AdapterConnectionError m
  | AttributeError m | KeyError m | OtherError m => AdapterError ("Bybit request failed: " ++ m)
  end.

Definition catch {A} (r : res A) : res A :=
  match r with Ok x => Ok x | Raise e => Raise (call_api_except e) end.

(** [call_api]: the adapter after [_ensure_session], the requests issued,
    and the outcome. *)
Definition call_api (a : adapter) (now_ms : Z) (send : http_call -> res response)
    (req : native_request) : adapter * list http_call * res json :=
  let a := _ensure_session a in
  match prepare_call a now_ms req with
  | Raise e => (a, [], catch (Raise e))
  | Ok c => (a, [c], catch (let* resp := send c in handle_response resp))
  end.

(** ** [disconnect]

    [requests.Session.close] does not raise; its effect is recorded in
    [closed]. *)
Definition disconnect (a : adapter) : adapter :=
  mk_adapter (api_key a) (api_secret a) (base_url a) (recv_window a) (time_offset a)
             None false
             (match session a with Some s => s :: closed a | None => closed a end)
             (next_session a).

(** ** [connect]

    The session's answer to the server-time request carries the HTTP
    status, its reason phrase, [resp.url] (the final URL, after the
    redirects the session follows) and the outcome of [resp.json()].  On this
    path [ConnectionError] is [requests.ConnectionError] (with
    [requests.ConnectTimeout]) and [TimeoutError] the other
    [requests.Timeout]s, which [connect] does not catch. *)
Record server_response := mk_server_response {
  sr_status : Z;
  sr_reason : string;
  sr_url : string;
  sr_json : res json
}.

(** [resp.raise_for_status()]: the message of the [HTTPError] raised for a
    4xx or 5xx status, if any; the message shows [resp.url]. *)
Definition raise_for_status (resp : server_response) : option string :=
  let st := sr_status resp in
  let url := sr_url resp in
  if (400 <=? st)%Z && (st <? 500)%Z then
    Some (py_int_str st ++ " Client Error: " ++ sr_reason resp ++ " for url: " ++ url)
  else if (500 <=? st)%Z && (st <? 600)%Z then
    Some (py_int_str st ++ " Server Error: " ++ sr_reason resp ++ " for url: " ++ url)
  else None.

(** [int(s)] for a string, base 10: surrounding ASCII whitespace, an
    optional sign, then decimal digits where each [_] stands between two
    digits. *)
Definition is_space (c : ascii) : bool :=
  let n := nat_of_ascii c in (n =? 32)%nat || ((9 <=? n)%nat && (n <=? 13)%nat).

Definition is_digit (c : ascii) : bool :=
  let n := nat_of_ascii c in (48 <=? n)%nat && (n <=? 57)%nat.

Definition digit_val (c : ascii) : Z := Z.of_nat (nat_of_ascii c - 48).

Fixpoint lstrip_space (l : list ascii) : list ascii :=
  match l with
  | c :: l' => if is_space c then lstrip_space l' else l
  | [] => []
  end.

Definition strip_space (l : list ascii) : list ascii := rev (lstrip_space (rev (lstrip_space l))).

Fixpoint dec_digits (acc : Z) (l : list ascii) : option Z :=
  match l with
  | [] => Some acc
  | c :: l' =>
      if is_digit c then dec_digits (acc * 10 + digit_val c)%Z l'
      else if Ascii.eqb c "_" then
        match l' with
        | d :: l'' => if is_digit d then dec_digits (acc * 10 + digit_val d)%Z l'' else None
        | [] => None
        end
      else None
  end.

Definition parse_int (s : string) : option Z :=
  let l := strip_space (list_ascii_of_string s) in
  let '(sign, l) :=
    match l with
    | c :: l' =>
        if Ascii.eqb c "-" then ((-1)%Z, l') else if Ascii.eqb c "+" then (1%Z, l') else (1%Z, l)
    | [] => (1%Z, l)
    end in
  match l with
  | c :: l' => if is_digit c then option_map (Z.mul sign) (dec_digits (digit_val c) l') else None
  | [] => None
  end.

(** [int(v)]; the [ValueError] message shows at most 200 characters of the
    string's [repr]. *)
Definition py_int (v : json) : res Z :=
  match v with
  | JInt z => Ok z
  | JBool b => Ok (if b then 1 else 0)%Z
  | JStr s =>
      match parse_int s with
      | Some z => Ok z
      | None => Raise (OtherError ("invalid literal for int() with base 10: " ++ substring 0 200 (repr_str s)))
      end
  | _ => Raise (OtherError ("int() argument must be a string, a bytes-like object or a real number, not '"
                            ++ py_type_name v ++ "'"))
  end.

(** What the [try] block of [connect] ends with, once the request is made:
    the new clock offset if the server reported its time, the [HTTPError]
    of [raise_for_status], or another exception. *)
Inductive connect_outcome : Type :=
| ConnectOk (offset : option Z)
| ConnectHTTPError (msg : string)
| ConnectRaise (e : exc).

Definition connect_try (now_ms : Z) (r : res server_response) : connect_outcome :=
  match r with
  | Raise e => ConnectRaise e
  | Ok resp =>
      match raise_for_status resp with
      | Some m => ConnectHTTPError m
      | None =>
          match (let* data := sr_json resp in
                 let* result := py_get data "result" (JObj []) in
                 let* server_time := py_get result "timeSecond" JNull in
                 if py_truthy server_time then
                   let* st := py_int server_time in Ok (Some (st * 1000 - now_ms)%Z)
                 else Ok None) with
          | Ok off => ConnectOk off
          | Raise e => ConnectRaise e
          end
      end
  end.

(** [connect]: the adapter afterwards and the outcome.  [get] is the new
    session's [get] and [now_ms] is [int(time.time() * 1000)]. *)
Definition connect (a : adapter) (now_ms : Z) (get : http_call -> res server_response)
    : adapter * res unit :=
  let a := mk_adapter (api_key a) (api_secret a) (base_url a) (recv_window a) (time_offset a)
                      (Some (next_session a)) (connected a) (closed a) (S (next_session a)) in
  let url := base_url a ++ EP_server_time in
  match connect_try now_ms (get (mk_call "GET" url [] [])) with
  | ConnectOk off =>
      (mk_adapter (api_key a) (api_secret a) (base_url a) (recv_window a)
                  (match off with Some o => o | None => time_offset a end)
                  (session a) true (closed a) (next_session a), Ok tt)
  | ConnectHTTPError m => (a, Raise (AdapterConnectionError ("Bybit API error: " ++ m)))
  | ConnectRaise (ConnectionError m) => (a, Raise (AdapterConnectionError ("Cannot reach Bybit API: " ++ m)))
  | ConnectRaise e => (a, Raise e)
  end.

(** ** Small checks against the repository's tests *)

Definition test_adapter : adapter :=
  mk_adapter (Some "test-key") (Some "test-secret") BASE_URL "20000" 0 (Some 0%nat) true [] 1.

Example test_price_query :
  to_native "ACT.QUERY.DATA" [("symbol", JStr "btcusdt")]
  = Ok (mk_req "GET" "/v5/market/tickers" [("category", JStr "spot"); ("symbol", JStr "BTCUSDT")] false).
Proof. reflexivity. Qed.

Example test_limit_order :
  to_native "ACT.TRANSACT.REQUEST"
    [("symbol", JStr "ETHUSDT"); ("side", JStr "BUY"); ("quantity", JInt 1);
     ("order_type", JStr "LIMIT"); ("price", JInt 2000)]
  = Ok (mk_req "POST" "/v5/order/create"
          [("category", JStr "spot"); ("symbol", JStr "ETHUSDT"); ("side", JStr "Buy");
           ("orderType", JStr "Limit"); ("qty", JStr "1"); ("price", JStr "2000");
           ("timeInForce", JStr "GTC")] true).
Proof. vm_compute. reflexivity. Qed.

Example test_api_error_response :
  snd (call_api test_adapter 0
         (fun _ => Ok (mk_response (Ok (JObj [("retCode", JInt 10001); ("retMsg", JStr "Invalid symbol");
                                              ("result", JObj [])]))))
         (mk_req "GET" "/v5/market/tickers" [("symbol", JStr "INVALID")] false))
  = Raise (AdapterError "Bybit error 10001: Invalid symbol").
Proof. vm_compute. reflexivity. Qed.

Example test_connection_error :
  snd (call_api test_adapter 0 (fun _ => Raise (ConnectionError "Network down"))
         (mk_req "GET" "/v5/market/tickers" [] false))
  = Raise (AdapterConnectionError "Cannot reach Bybit: Network down").
Proof. vm_compute. reflexivity. Qed.

(** ** Readings of the signing contract

    [key_le]: the order "sorted by key" of the contract. *)
Definition key_le (x y : string * json) : Prop := str_ltb (fst y) (fst x) = false.

(** A lowercase hexadecimal digit. *)
Definition is_hex_digit (c : ascii) : bool :=
  let n := nat_of_ascii c in ((48 <=? n)%nat && (n <=? 57)%nat) || ((97 <=? n)%nat && (n <=? 102)%nat).

(** The spec's wording of the POST parameter string, "a compact JSON object,
    key order as provided": separators [","] and [":"] without spaces. *)
Fixpoint json_compact (v : json) : string :=
  match v with
  | JNull => "null"
  | JBool true => "true"
  | JBool false => "false"
  | JInt z => py_int_str z
  | JStr s => json_quote s
  | JArr l => "[" ++ join "," (map json_compact l) ++ "]"
  | JObj kvs =>
      "{" ++ join "," (map (fun '(k, x) => json_quote k ++ ":" ++ json_compact x) kvs) ++ "}"
  end.

(** * Lemmas *)

Lemma str_app_assoc (x y z : string) : (x ++ y) ++ z = x ++ (y ++ z).
Proof. induction x as [|c x IH]; simpl; [reflexivity | now rewrite IH]. Qed.

Lemma str_app_nil_r (x : string) : x ++ EmptyString = x.
Proof. induction x as [|c x IH]; simpl; [reflexivity | now rewrite IH]. Qed.

Lemma substr_mid (a t b : string) : substr t (a ++ t ++ b).
Proof. exists a, b. reflexivity. Qed.

Lemma substr_prefix (t b : string) : substr t (t ++ b).
Proof. now exists EmptyString, b. Qed.

Lemma substr_app_r (t s1 s2 : string) : substr t s2 -> substr t (s1 ++ s2).
Proof.
  intros (a & b & ->). exists (s1 ++ a), b. now rewrite str_app_assoc.
Qed.

Lemma prefixb_sound (t s : string) : prefixb t s = true -> exists b, s = t ++ b.
Proof.
  revert s. induction t as [|c t IH]; intros s H.
  - now exists s.
  - destruct s as [|d s]; simpl in H; [discriminate|].
    apply andb_prop in H as [Hc Ht]. apply Ascii.eqb_eq in Hc. subst d.
    destruct (IH s Ht) as [b ->]. now exists b.
Qed.

Lemma substrb_sound (t s : string) : substrb t s = true -> substr t s.
Proof.
  induction s as [|c s IH]; simpl; intros H.
  - destruct (prefixb t EmptyString) eqn:E; simpl in H; [|discriminate].
    destruct (prefixb_sound _ _ E) as [b Hb]. now exists EmptyString, b.
  - apply orb_prop in H as [H|H].
    + destruct (prefixb_sound _ _ H) as [b Hb]. now exists EmptyString, b.
    + destruct (IH H) as (a & b & ->). now exists (String c a), b.
Qed.

Lemma assoc_get_none (k : string) (l : list (string * string)) :
  ~ In k (map fst l) -> assoc_get k l = None.
Proof.
  induction l as [|[k' v] l IH]; simpl; intros H; [reflexivity|].
  destruct (String.eqb_spec k k') as [->|Hne]; [exfalso; auto|].
  apply IH. intuition.
Qed.

Lemma py_upper_inv (v : json) (u : string) : py_upper v = Ok u -> exists s, v = JStr s /\ u = upper s.
Proof. destruct v; simpl; intros H; try discriminate. injection H as <-. eauto. Qed.

Lemma dict_get_set_other (k k' : string) (v : json) (d : dict) :
  k <> k' -> dict_get k (dict_set k' v d) = dict_get k d.
Proof.
  intros Hne. induction d as [|[k0 v0] d IH]; simpl.
  - destruct (String.eqb_spec k k'); [contradiction | reflexivity].
  - destruct (String.eqb_spec k' k0) as [->|]; simpl.
    + destruct (String.eqb_spec k k0); [contradiction | reflexivity].
    + destruct (String.eqb k k0); [reflexivity | exact IH].
Qed.

Lemma py_eq_str_true (v : json) (s : string) : py_eq_str v s = true -> v = JStr s.
Proof. destruct v; simpl; intros H; try discriminate. now apply String.eqb_eq in H as ->. Qed.

(** Case analysis on the conditionals and matches of the hypotheses, until
    every [res] equation is solved. *)
Ltac split_res :=
  repeat (unfold bind in *; cbn in *;
          match goal with
          | H : Ok _ = Ok _ |- _ => injection H as H; subst
          | H : Ok _ = Raise _ |- _ => discriminate H
          | H : Raise _ = Ok _ |- _ => discriminate H
          | H : JStr _ = JStr _ |- _ => injection H as H; subst
          | H : true = false |- _ => discriminate H
          | H : false = true |- _ => discriminate H
          | H : context [if ?b then _ else _] |- _ => let E := fresh "E" in destruct b eqn:E
          | H : context [match ?x with _ => _ end] |- _ => let E := fresh "E" in destruct x eqn:E
          end).

(** The part of the adapter [_ensure_session] leaves unchanged. *)
Lemma ensure_session_keeps (a : adapter) :
  api_key (_ensure_session a) = api_key a /\ api_secret (_ensure_session a) = api_secret a
  /\ base_url (_ensure_session a) = base_url a /\ recv_window (_ensure_session a) = recv_window a
  /\ time_offset (_ensure_session a) = time_offset a.
Proof. unfold _ensure_session. destruct (session a); repeat split. Qed.

(** * The adapter's contract *)

(** ** Connection lifecycle *)

(** C8: [disconnect] leaves no session and [connected = False] from any
    state, raises nothing (it is total), and a second call changes
    nothing: the session is closed once. *)
Theorem disconnect_idempotent (a : adapter) :
  session (disconnect a) = None /\ connected (disconnect a) = false
  /\ disconnect (disconnect a) = disconnect a.
Proof. destruct a as [k s u r o [sid|] c cl n]; repeat split. Qed.

(** ** Action table *)

(** C5: an action outside [ACTION_MAP] makes [to_native] raise an
    "Unsupported action" adapter error whose message names the action and
    each supported action; [supported_actions] is exactly the six actions. *)
Theorem to_native_unsupported (action : string) (params : dict)
    (Hout : ~ In action supported_actions) :
  (exists msg, to_native action params = Raise (AdapterError msg)
     /\ substr "Unsupported action" msg /\ substr action msg
     /\ Forall (fun k => substr k msg) supported_actions)
  /\ supported_actions
     = ["ACT.QUERY.DATA"; "ACT.QUERY.STATUS"; "ACT.TRANSACT.REQUEST";
        "ACT.CANCEL"; "ACT.QUERY.LIST"; "ACT.QUERY.BALANCE"].
Proof.
  split; [|reflexivity].
  unfold to_native. rewrite (assoc_get_none _ _ Hout).
  eexists; split; [reflexivity|]. split; [|split].
  - apply substrb_sound. reflexivity.
  - apply substr_app_r with (s1 := "Unsupported action '"). apply substr_prefix.
  - set (L := py_str (JArr (map JStr supported_actions))).
    assert (HL : Forall (fun k => substr k L) supported_actions).
    { unfold supported_actions; simpl map.
      repeat constructor; apply substrb_sound; vm_compute; reflexivity. }
    eapply Forall_impl; [|exact HL]. intros k Hk.
    apply substr_app_r with (s1 := "Unsupported action '").
    apply substr_app_r with (s1 := action).
    apply substr_app_r with (s1 := "'. Supported: "). exact Hk.
Qed.

(** ** Signing without credentials *)

(** C4: with the API key or the secret absent both signing routines raise
    the credentials-required adapter error, and a signed GET or POST passed
    to [call_api] raises it without handing any request to the session. *)
Theorem signing_requires_credentials (a : adapter) (now_ms : Z) (p : dict)
    (Habsent : api_key a = None \/ api_secret a = None) :
  _sign_get a now_ms p = Raise credentials_error
  /\ _sign_post a now_ms p = Raise credentials_error
  /\ (forall send req, signed req = true ->
        call_api a now_ms send req
        = (_ensure_session a, [],
           if String.eqb (method req) "GET" || String.eqb (method req) "POST"
           then Raise credentials_error
           else Raise (AdapterError ("Unknown HTTP method: " ++ method req)))).
Proof.
  assert (Hc : forall b, api_key b = api_key a -> api_secret b = api_secret a ->
                 check_credentials b = Raise credentials_error).
  { intros b Hk Hs. unfold check_credentials. rewrite Hk, Hs.
    destruct Habsent as [-> | ->]; [reflexivity|]. destruct (api_key a); reflexivity. }
  split; [|split].
  - unfold _sign_get. now rewrite (Hc a).
  - unfold _sign_post. now rewrite (Hc a).
  - intros send req Hs. destruct (ensure_session_keeps a) as (Hk & Hsec & _).
    unfold call_api, prepare_call. rewrite Hs.
    unfold _sign_get, _sign_post. rewrite (Hc _ Hk Hsec).
    destruct (String.eqb (method req) "GET"); simpl; [reflexivity|].
    destruct (String.eqb (method req) "POST"); reflexivity.
Qed.

(** ** Outcome classification in [call_api] *)

(** A request [call_api] hands to the session is the one [prepare_call]
    built, and the outcome is the [except]-translation of the session's
    answer run through [handle_response]. *)
Lemma call_api_sent (a : adapter) (now_ms : Z) (send : http_call -> res response)
    (req : native_request) (a' : adapter) (cs : list http_call) (out : res json) (c : http_call) :
  call_api a now_ms send req = (a', cs, out) -> In c cs ->
  out = catch (let* resp := send c in handle_response resp).
Proof.
  unfold call_api. destruct (prepare_call _ now_ms req) as [c0|e]; intros H Hin;
    injection H as <- <- <-; [|contradiction].
  destruct Hin as [<-|[]]. reflexivity.
Qed.

(** C1: once [call_api] has issued a request, a connection failure or a
    timeout of the session becomes an [AdapterConnectionError]; a failure
    of [resp.json()] becomes an [AdapterError]; a JSON object whose
    [retCode] is not [0] becomes an [AdapterError] whose message holds the
    code and the exchange's message text; a [retCode] equal to [0] returns
    the [result] entry, or the whole body when there is none. *)
Theorem call_api_outcomes (a : adapter) (now_ms : Z) (send : http_call -> res response)
    (req : native_request) (a' : adapter) (cs : list http_call) (out : res json) (c : http_call)
    (Hcall : call_api a now_ms send req = (a', cs, out)) (Hsent : In c cs) :
  (forall m, send c = Raise (ConnectionError m) ->
     out = Raise (AdapterConnectionError ("Cannot reach Bybit: " ++ m)))
  /\ (forall m, send c = Raise (TimeoutError m) ->
     out = Raise (AdapterConnectionError ("Bybit request timed out: " ++ m)))
  /\ (forall m, send c = Ok (mk_response (Raise (OtherError m))) ->
     out = Raise (AdapterError ("Bybit request failed: " ++ m)))
  /\ (forall kvs code, send c = Ok (mk_response (Ok (JObj kvs))) ->
        dict_get "retCode" kvs = Some code -> py_eq_int code 0 = false ->
        exists m, out = Raise (AdapterError m) /\ substr (py_str code) m
          /\ substr (py_str (dict_get_default "retMsg" kvs (JStr "Unknown error"))) m)
  /\ (forall kvs code, send c = Ok (mk_response (Ok (JObj kvs))) ->
        dict_get "retCode" kvs = Some code -> py_eq_int code 0 = true ->
        out = Ok (dict_get_default "result" kvs (JObj kvs))).
Proof.
  pose proof (call_api_sent _ _ _ _ _ _ _ _ Hcall Hsent) as ->.
  repeat split.
  - intros m ->. reflexivity.
  - intros m ->. reflexivity.
  - intros m ->. reflexivity.
  - intros kvs code Hs Hr Hne. rewrite Hs. cbn [bind catch handle_response resp_json py_get].
    assert (Hd : dict_get_default "retCode" kvs (JInt 0) = code) by (unfold dict_get_default; now rewrite Hr).
    rewrite Hd, Hne. cbn [negb bind catch py_get].
    eexists; split; [reflexivity|]. split.
    + apply substr_app_r with (s1 := "Bybit error "). apply substr_prefix.
    + apply substr_app_r with (s1 := "Bybit error ").
      apply substr_app_r with (s1 := py_str code).
      apply substr_app_r with (s1 := ": "). exists EmptyString, EmptyString.
      simpl. symmetry. apply str_app_nil_r.
  - intros kvs code Hs Hr Heq. rewrite Hs. cbn [bind catch handle_response resp_json py_get].
    assert (Hd : dict_get_default "retCode" kvs (JInt 0) = code) by (unfold dict_get_default; now rewrite Hr).
    rewrite Hd, Heq. reflexivity.
Qed.

(** C9 (as amended): for a response body that is a JSON object with no
    [retCode] key the code defaults to [0] and no error is raised; the
    whole body is returned exactly when the [result] key is absent, and a
    present [result] (also [null] or empty) is returned as it is.  A body
    that parses to anything other than an object has no [.get]: the
    [AttributeError] becomes the generic "Bybit request failed" adapter
    error. *)
Theorem call_api_no_retcode (a : adapter) (now_ms : Z) (send : http_call -> res response)
    (req : native_request) (a' : adapter) (cs : list http_call) (out : res json) (c : http_call)
    (Hcall : call_api a now_ms send req = (a', cs, out)) (Hsent : In c cs) :
  (forall kvs, send c = Ok (mk_response (Ok (JObj kvs))) -> dict_get "retCode" kvs = None ->
     out = Ok (match dict_get "result" kvs with Some r => r | None => JObj kvs end))
  /\ (forall v, send c = Ok (mk_response (Ok v)) -> (forall kvs, v <> JObj kvs) ->
     out = Raise (AdapterError ("Bybit request failed: '" ++ py_type_name v
                                ++ "' object has no attribute 'get'"))).
Proof.
  pose proof (call_api_sent _ _ _ _ _ _ _ _ Hcall Hsent) as ->. split.
  - intros kvs Hbody Hnocode.
    rewrite Hbody. cbn [bind catch handle_response resp_json py_get].
    unfold dict_get_default. rewrite Hnocode. reflexivity.
  - intros v Hbody Hv.
    rewrite Hbody. cbn [bind catch handle_response resp_json].
    destruct v; try reflexivity. exfalso. eapply Hv. reflexivity.
Qed.

(** C9 counterexample: a response body that parses to a JSON array has no
    [retCode] key, yet [data.get] fails on it and [call_api] raises a
    generic adapter error instead of succeeding. *)
Lemma call_api_array_body_fails :
  snd (call_api test_adapter 0 (fun _ => Ok (mk_response (Ok (JArr []))))
         (mk_req "GET" EP_tickers [] false))
  = Raise (AdapterError "Bybit request failed: 'list' object has no attribute 'get'").
Proof. vm_compute. reflexivity. Qed.

(** ** Request builders *)

(** C6: [_build_query_request] rejects a query type other than [price],
    [24h], [klines] and [depth] with an error naming the four; a [klines] or
    [depth] query without a (truthy) [symbol] raises "Symbol required";
    every descriptor it builds is an unsigned GET whose [category] defaults
    to ["spot"], with [interval] defaulting to ["60"] and [limit] to [100]
    for [klines], and [limit] defaulting to [20] for [depth]. *)
Theorem build_query_contract (p : dict) :
  (py_eq_str (dict_get_default "type" p (JStr "price")) "price" = false ->
   py_eq_str (dict_get_default "type" p (JStr "price")) "24h" = false ->
   py_eq_str (dict_get_default "type" p (JStr "price")) "klines" = false ->
   py_eq_str (dict_get_default "type" p (JStr "price")) "depth" = false ->
   exists m, _build_query_request p = Raise (AdapterError m)
     /\ Forall (fun t => substr t m) ["price"; "24h"; "klines"; "depth"])
  /\ ((py_eq_str (dict_get_default "type" p (JStr "price")) "klines" = true
       \/ py_eq_str (dict_get_default "type" p (JStr "price")) "depth" = true) ->
      py_truthy (dict_get_default "symbol" p JNull) = false ->
      exists m, _build_query_request p = Raise (AdapterError m) /\ substr "Symbol required" m)
  /\ (forall d, _build_query_request p = Ok d ->
      method d = "GET" /\ signed d = false
      /\ dict_get "category" (params d) = Some (dict_get_default "category" p (JStr "spot"))
      /\ (py_eq_str (dict_get_default "type" p (JStr "price")) "klines" = true ->
          dict_get "interval" (params d) = Some (dict_get_default "interval" p (JStr "60"))
          /\ dict_get "limit" (params d) = Some (dict_get_default "limit" p (JInt 100)))
      /\ (py_eq_str (dict_get_default "type" p (JStr "price")) "depth" = true ->
          dict_get "limit" (params d) = Some (dict_get_default "limit" p (JInt 20)))).
Proof.
  unfold _build_query_request. cbv zeta.
  remember (dict_get_default "type" p (JStr "price")) as qt eqn:Eqt.
  remember (dict_get_default "symbol" p JNull) as sym eqn:Esym.
  clear Eqt Esym.
  split; [|split].
  - intros H1 H2 H3 H4. rewrite H1, H2, H3, H4. simpl.
    eexists; split; [reflexivity|].
    repeat constructor;
      apply substr_app_r with (s1 := "Unknown query type '");
      apply substr_app_r with (s1 := py_str qt);
      apply substrb_sound; reflexivity.
  - intros [Hq|Hq] Hs; apply py_eq_str_true in Hq; subst qt; simpl; rewrite Hs; simpl;
      eexists; (split; [reflexivity|]); apply substrb_sound; reflexivity.
  - intros d Hd.
    destruct (py_eq_str qt "price" || py_eq_str qt "24h") eqn:Ep.
    + assert (Hk : py_eq_str qt "klines" = false /\ py_eq_str qt "depth" = false).
      { destruct qt; try (split; reflexivity). simpl in Ep |- *.
        apply orb_prop in Ep as [E|E]; apply String.eqb_eq in E as ->; split; reflexivity. }
      destruct Hk as [-> ->].
      split_res; repeat split; discriminate.
    + split_res; repeat split; try reflexivity; intros;
        match goal with H : py_eq_str qt _ = true |- _ => apply py_eq_str_true in H; subst qt end;
        simpl in *; discriminate.
Qed.

(** C7: whenever [to_native] succeeds and the descriptor it builds has a
    [symbol] entry, that entry is the upper-cased input [symbol] (for all
    six actions). *)
Theorem to_native_symbol_upper (action : string) (p : dict) (d : native_request) (v : json)
    (Hok : to_native action p = Ok d) (Hsym : dict_get "symbol" (params d) = Some v) :
  exists s, dict_get "symbol" p = Some (JStr s) /\ v = JStr (upper s).
Proof.
  unfold to_native, _build_query_request, _build_order_request, _build_cancel_request,
    _build_status_request, _build_open_orders_request, _build_balance_request,
    dict_get_default, dict_index, py_upper in Hok.
  revert Hsym. split_res; intros Hsym; cbn in Hsym; try discriminate Hsym;
    injection Hsym as <-; subst; try discriminate; eexists; split; reflexivity.
Qed.

(** C10: in a descriptor built by [_build_order_request] the [orderType]
    entry is ["Market"] when [order_type] is absent, ["Limit"] when the
    given [order_type] upper-cases to ["LIMIT"], and the given string
    verbatim otherwise. *)
Theorem build_order_order_type (p : dict) (d : native_request)
    (Hok : _build_order_request p = Ok d) :
  match dict_get "order_type" p with
  | None => dict_get "orderType" (params d) = Some (JStr "Market")
  | Some ot => exists s, ot = JStr s
      /\ dict_get "orderType" (params d)
         = Some (if String.eqb (upper s) "LIMIT" then JStr "Limit" else JStr s)
  end.
Proof.
  unfold _build_order_request, dict_get_default, dict_index, py_upper in Hok.
  split_res; cbn; try reflexivity; try discriminate; eexists; split; try reflexivity;
    match goal with H : (upper _ =? "LIMIT") = _ |- _ => rewrite H end; reflexivity.
Qed.

(** C3 (as amended): [_build_order_request] raises an error naming a
    missing field when one of [symbol], [side], [quantity] is absent.  When
    they are present, with [symbol], [side] and (if given) [order_type]
    strings, it builds a signed POST to the order endpoint: [side] is
    ["Buy"] when it upper-cases to ["BUY"] and ["Sell"] otherwise,
    [orderType] defaults to ["Market"], [qty] is [str(quantity)]; a type
    upper-casing to ["LIMIT"] requires [price] (else "Price required") and
    then adds [price] as [str(price)] and [timeInForce] defaulting to
    ["GTC"].  With the three fields present, a [symbol], [side] or
    [order_type] that is not a string makes [.upper()] raise an
    [AttributeError] instead, checked in that order. *)
Theorem build_order_contract (p : dict) :
  (forall f, In f order_required -> dict_get f p = None ->
     exists f' m, In f' order_required /\ dict_get f' p = None
       /\ _build_order_request p = Raise (AdapterError m) /\ substr f' m)
  /\ (forall sym side q ot,
       dict_get "symbol" p = Some (JStr sym) -> dict_get "side" p = Some (JStr side) ->
       dict_get "quantity" p = Some q ->
       dict_get_default "order_type" p (JStr "Market") = JStr ot ->
       (String.eqb (upper ot) "LIMIT" = false ->
        _build_order_request p
        = Ok (mk_req "POST" EP_place_order
                [("category", dict_get_default "category" p (JStr "spot"));
                 ("symbol", JStr (upper sym));
                 ("side", JStr (if String.eqb (upper side) "BUY" then "Buy" else "Sell"));
                 ("orderType", JStr ot); ("qty", JStr (py_str q))] true))
       /\ (String.eqb (upper ot) "LIMIT" = true -> dict_get "price" p = None ->
           _build_order_request p = Raise (AdapterError "Price required for LIMIT orders."))
       /\ (forall pr, String.eqb (upper ot) "LIMIT" = true -> dict_get "price" p = Some pr ->
           _build_order_request p
           = Ok (mk_req "POST" EP_place_order
                   [("category", dict_get_default "category" p (JStr "spot"));
                    ("symbol", JStr (upper sym));
                    ("side", JStr (if String.eqb (upper side) "BUY" then "Buy" else "Sell"));
                    ("orderType", JStr "Limit"); ("qty", JStr (py_str q));
                    ("price", JStr (py_str pr));
                    ("timeInForce", dict_get_default "time_in_force" p (JStr "GTC"))] true)))
  /\ (forall v, dict_get "symbol" p = Some v -> (forall s, v <> JStr s) ->
       dict_get "side" p <> None -> dict_get "quantity" p <> None ->
       _build_order_request p = Raise (no_attribute v "upper"))
  /\ (forall sym v, dict_get "symbol" p = Some (JStr sym) -> dict_get "side" p = Some v ->
       (forall s, v <> JStr s) -> dict_get "quantity" p <> None ->
       _build_order_request p = Raise (no_attribute v "upper"))
  /\ (forall sym side q v,
       dict_get "symbol" p = Some (JStr sym) -> dict_get "side" p = Some (JStr side) ->
       dict_get "quantity" p = Some q ->
       dict_get_default "order_type" p (JStr "Market") = v -> (forall s, v <> JStr s) ->
       _build_order_request p = Raise (no_attribute v "upper")).
Proof.
  split; [|split; [|split; [|split]]].
  - intros f Hf Hn. unfold _build_order_request. simpl check_required.
    destruct (dict_get "symbol" p) eqn:E1;
      [destruct (dict_get "side" p) eqn:E2;
        [destruct (dict_get "quantity" p) eqn:E3|]|].
    + exfalso. simpl in Hf. intuition congruence.
    + exists "quantity". eexists. split; [simpl; auto|]. split; [exact E3|].
      split; [reflexivity|]. apply substrb_sound. reflexivity.
    + exists "side". eexists. split; [simpl; auto|]. split; [exact E2|].
      split; [reflexivity|]. apply substrb_sound. reflexivity.
    + exists "symbol". eexists. split; [simpl; auto|]. split; [exact E1|].
      split; [reflexivity|]. apply substrb_sound. reflexivity.
  - intros sym side q ot Hsym Hside Hq Hot.
    unfold _build_order_request. rewrite Hot. simpl check_required.
    unfold dict_index. rewrite Hsym, Hside, Hq. cbn.
    repeat split.
    + intros Hl. now rewrite Hl.
    + intros Hl Hp. now rewrite Hl, Hp.
    + intros pr Hl Hp. now rewrite Hl, Hp.
  - intros v Hsym Hv Hside Hq. unfold _build_order_request. simpl check_required.
    rewrite Hsym.
    destruct (dict_get "side" p) eqn:E2; [|congruence].
    destruct (dict_get "quantity" p) eqn:E3; [|congruence].
    cbn [bind]. unfold dict_index. rewrite Hsym. cbn [bind].
    destruct v; try reflexivity; exfalso; eapply Hv; reflexivity.
  - intros sym v Hsym Hside Hv Hq. unfold _build_order_request. simpl check_required.
    rewrite Hsym, Hside.
    destruct (dict_get "quantity" p) eqn:E3; [|congruence].
    cbn [bind]. unfold dict_index. rewrite Hsym, Hside. cbn [bind py_upper].
    destruct v; try reflexivity; exfalso; eapply Hv; reflexivity.
  - intros sym side q v Hsym Hside Hq Hot Hv.
    unfold _build_order_request. rewrite Hot. simpl check_required.
    unfold dict_index. rewrite Hsym, Hside, Hq. cbn.
    destruct v; try reflexivity; exfalso; eapply Hv; reflexivity.
Qed.

(** C3 counterexample: all three fields are present but [side] is an
    integer; [params["side"].upper()] raises an [AttributeError] instead of
    normalising the side. *)
Lemma build_order_nonstring_side :
  _build_order_request [("symbol", JStr "BTCUSDT"); ("side", JInt 1); ("quantity", JInt 1)]
  = Raise (AttributeError "'int' object has no attribute 'upper'").
Proof. vm_compute. reflexivity. Qed.

(** ** Signing *)

Lemma str_ltb_asym (x y : string) : str_ltb x y = true -> str_ltb y x = false.
Proof.
  revert y. induction x as [|c x IH]; intros [|d y]; simpl; try discriminate; auto.
  destruct (Nat.ltb_spec (nat_of_ascii c) (nat_of_ascii d));
    destruct (Nat.ltb_spec (nat_of_ascii d) (nat_of_ascii c)); try lia; auto.
Qed.

Lemma insert_item_perm (x : string * json) (l : dict) : Permutation (insert_item x l) (x :: l).
Proof.
  induction l as [|y l IH]; simpl; [reflexivity|].
  destruct (str_ltb (fst x) (fst y)); [reflexivity|].
  rewrite IH. apply perm_swap.
Qed.

Lemma sorted_items_perm (d : dict) : Permutation (sorted_items d) d.
Proof.
  unfold sorted_items.
  assert (H : forall acc, Permutation (fold_left (fun acc x => insert_item x acc) d acc) (acc ++ d)).
  { induction d as [|x d IH]; intros acc; simpl.
    - now rewrite app_nil_r.
    - rewrite IH, insert_item_perm. apply Permutation_middle. }
  apply H.
Qed.

Lemma insert_item_hdrel (x y : string * json) (l : dict) :
  HdRel key_le y l -> key_le y x -> HdRel key_le y (insert_item x l).
Proof.
  intros Hl Hyx. destruct l as [|z l]; simpl.
  - now constructor.
  - destruct (str_ltb (fst x) (fst z)); constructor; [exact Hyx|]. now inversion Hl.
Qed.

Lemma insert_item_sorted (x : string * json) (l : dict) :
  Sorted key_le l -> Sorted key_le (insert_item x l).
Proof.
  induction l as [|y l IH]; intros Hs; simpl.
  - repeat constructor.
  - destruct (str_ltb (fst x) (fst y)) eqn:E.
    + constructor; [exact Hs|]. constructor. unfold key_le. now apply str_ltb_asym.
    + apply Sorted_inv in Hs as [Hs Hh]. constructor; [now apply IH|].
      apply insert_item_hdrel; [exact Hh | exact E].
Qed.

Lemma sorted_items_sorted (d : dict) : Sorted key_le (sorted_items d).
Proof.
  unfold sorted_items.
  assert (H : forall acc, Sorted key_le acc ->
                Sorted key_le (fold_left (fun acc x => insert_item x acc) d acc)).
  { induction d as [|x d IH]; intros acc Ha; simpl; [exact Ha|].
    apply IH. now apply insert_item_sorted. }
  apply H. constructor.
Qed.

Lemma hexdigest_length (bs : list Z) : String.length (hexdigest bs) = (2 * List.length bs)%nat.
Proof. induction bs as [|b bs IH]; simpl; [reflexivity|]. rewrite IH. lia. Qed.

Lemma hex_digit_hex (n : nat) : (n < 16)%nat -> is_hex_digit (hex_digit n) = true.
Proof. intros H. do 16 (destruct n as [|n]; [reflexivity|]). lia. Qed.

Definition byte_range (b : Z) : Prop := (0 <= b < 256)%Z.

Lemma hexdigest_hex (bs : list Z) :
  Forall byte_range bs -> Forall (fun c => is_hex_digit c = true) (list_ascii_of_string (hexdigest bs)).
Proof.
  induction bs as [|b bs IH]; intros H; simpl; [constructor|].
  inversion H as [|? ? [Hb0 Hb1] Hbs]; subst.
  constructor; [|constructor; [|now apply IH]]; apply hex_digit_hex.
  - assert (0 <= b / 16 < 16)%Z by (split; [apply Z.div_pos | apply Z.div_lt_upper_bound]; lia). lia.
  - assert (0 <= b mod 16 < 16)%Z by (apply Z.mod_pos_bound; lia). lia.
Qed.

Lemma word_bytes_range (w : Z) : Forall byte_range (word_bytes w).
Proof.
  assert (H : forall x, byte_range (Z.land x 255)).
  { intros x. change 255%Z with (Z.ones 8). rewrite Z.land_ones by lia.
    apply Z.mod_pos_bound. reflexivity. }
  unfold word_bytes. repeat constructor; apply H.
Qed.

Lemma state_bytes_shape (h : hstate) :
  List.length (state_bytes h) = 32%nat /\ Forall byte_range (state_bytes h).
Proof.
  split; [reflexivity|].
  unfold state_bytes. repeat (apply Forall_app; split); apply word_bytes_range.
Qed.

Lemma sha256_shape (msg : list Z) : List.length (sha256 msg) = 32%nat /\ Forall byte_range (sha256 msg).
Proof. unfold sha256. cbv zeta. apply state_bytes_shape. Qed.

(** The signature is 64 lowercase hex digits. *)
Lemma signature_hex (secret x : string) :
  String.length (signature secret x) = 64%nat
  /\ Forall (fun c => is_hex_digit c = true) (list_ascii_of_string (signature secret x)).
Proof.
  unfold signature, hmac_sha256. cbv zeta.
  match goal with |- context [hexdigest (sha256 ?m)] => destruct (sha256_shape m) as [Hl Hr] end.
  split; [rewrite hexdigest_length, Hl; reflexivity | now apply hexdigest_hex].
Qed.

(** C2 (as amended): with credentials present, the signature is the hex
    HMAC-SHA256, keyed by the secret, of
    [timestamp || api_key || recv_window || param_string], where the
    timestamp is [str(now_ms + time_offset)]; for GET the parameter string
    joins [key=str(value)] with ["&"] over the parameters sorted by key, and
    for POST it is [json.dumps(params)] with its default separators
    [", "] and [": "], keys in the given order.  The headers carry the key,
    the signature (64 lowercase hex digits), the timestamp and the receive
    window, plus the JSON content type for POST. *)
Theorem sign_headers (a : adapter) (now_ms : Z) (p : dict) (k s : string)
    (Hkey : api_key a = Some k) (Hsec : api_secret a = Some s)
    (Hk : k <> EmptyString) (Hs : s <> EmptyString) :
  (exists l, Permutation l p /\ Sorted key_le l
     /\ _sign_get a now_ms p
        = Ok [("X-BAPI-API-KEY", k);
              ("X-BAPI-SIGN", hexdigest (hmac_sha256 (utf8 s)
                 (utf8 (timestamp a now_ms ++ k ++ recv_window a
                        ++ join "&" (map (fun '(x, v) => x ++ "=" ++ py_str v) l)))));
              ("X-BAPI-TIMESTAMP", timestamp a now_ms);
              ("X-BAPI-RECV-WINDOW", recv_window a)])
  /\ _sign_post a now_ms p
     = Ok [("X-BAPI-API-KEY", k);
           ("X-BAPI-SIGN", hexdigest (hmac_sha256 (utf8 s)
              (utf8 (timestamp a now_ms ++ k ++ recv_window a ++ json_dumps (JObj p)))));
           ("X-BAPI-TIMESTAMP", timestamp a now_ms);
           ("X-BAPI-RECV-WINDOW", recv_window a);
           ("Content-Type", "application/json")]
  /\ (forall x, String.length (signature s x) = 64%nat
       /\ Forall (fun c => is_hex_digit c = true) (list_ascii_of_string (signature s x))).
Proof.
  assert (Hc : check_credentials a = Ok (k, s)).
  { unfold check_credentials. rewrite Hkey, Hsec.
    apply String.eqb_neq in Hk, Hs. now rewrite Hk, Hs. }
  split; [|split].
  - exists (sorted_items p). split; [apply sorted_items_perm|].
    split; [apply sorted_items_sorted|].
    unfold _sign_get. rewrite Hc. reflexivity.
  - unfold _sign_post. rewrite Hc. reflexivity.
  - intros x. apply signature_hex.
Qed.

(** C2 counterexample: the POST signature is not computed over the compact
    JSON text of the parameters ([{"a":"b"}]) but over [json.dumps]'s
    default rendering ([{"a": "b"}]), so it differs from the HMAC the
    contract describes. *)
Lemma sign_post_not_compact :
  _sign_post test_adapter 0 [("a", JStr "b")]
  <> Ok [("X-BAPI-API-KEY", "test-key");
         ("X-BAPI-SIGN", signature "test-secret"
            ("0" ++ "test-key" ++ "20000" ++ json_compact (JObj [("a", JStr "b")])));
         ("X-BAPI-TIMESTAMP", "0");
         ("X-BAPI-RECV-WINDOW", "20000");
         ("Content-Type", "application/json")].
Proof. vm_compute. intros H. discriminate H. Qed.

(** * Instances of the contract on concrete requests *)

Definition w_body : dict := [("retCode", JInt 0); ("retMsg", JStr "OK"); ("result", JStr "x")].
Definition w_send : http_call -> res response := fun _ => Ok (mk_response (Ok (JObj w_body))).
Definition w_req : native_request := mk_req "GET" EP_tickers [("category", JStr "spot")] false.
Definition w_call : http_call :=
  mk_call "GET" (BASE_URL ++ EP_tickers) [("category", JStr "spot")] [].

Lemma call_api_outcomes_witness :
  call_api test_adapter 0 w_send w_req = (test_adapter, [w_call], Ok (JStr "x"))
  /\ Ok (JStr "x") = Ok (dict_get_default "result" w_body (JObj w_body)).
Proof.
  assert (Hc : call_api test_adapter 0 w_send w_req = (test_adapter, [w_call], Ok (JStr "x")))
    by (vm_compute; reflexivity).
  split; [exact Hc|].
  destruct (call_api_outcomes test_adapter 0 w_send w_req test_adapter [w_call] (Ok (JStr "x"))
              w_call Hc (or_introl eq_refl)) as (_ & _ & _ & _ & H).
  exact (H w_body (JInt 0) eq_refl eq_refl eq_refl).
Defined.

Definition w_body2 : dict := [("result", JNull)].
Definition w_send2 : http_call -> res response := fun _ => Ok (mk_response (Ok (JObj w_body2))).

Lemma call_api_no_retcode_witness :
  call_api test_adapter 0 w_send2 w_req = (test_adapter, [w_call], Ok JNull)
  /\ Ok JNull = Ok JNull.
Proof.
  assert (Hc : call_api test_adapter 0 w_send2 w_req = (test_adapter, [w_call], Ok JNull))
    by (vm_compute; reflexivity).
  split; [exact Hc|].
  exact (proj1 (call_api_no_retcode test_adapter 0 w_send2 w_req test_adapter [w_call] (Ok JNull)
                  w_call Hc (or_introl eq_refl)) w_body2 eq_refl eq_refl).
Defined.

Lemma to_native_unsupported_witness :
  ~ In "ACT.CREATE.TEXT" supported_actions
  /\ exists msg, to_native "ACT.CREATE.TEXT" [] = Raise (AdapterError msg)
       /\ substr "ACT.CREATE.TEXT" msg.
Proof.
  assert (H : ~ In "ACT.CREATE.TEXT" supported_actions) by (simpl; intuition discriminate).
  split; [exact H|].
  destruct (to_native_unsupported "ACT.CREATE.TEXT" [] H) as [(msg & H1 & _ & H3 & _) _].
  exists msg. split; assumption.
Defined.

Lemma signing_requires_credentials_witness :
  api_key (new_adapter None (Some "s") false) = None
  /\ _sign_post (new_adapter None (Some "s") false) 0 [] = Raise credentials_error.
Proof.
  split; [reflexivity|].
  exact (proj1 (proj2 (signing_requires_credentials (new_adapter None (Some "s") false) 0 []
                         (or_introl eq_refl)))).
Defined.

Lemma sign_headers_witness :
  api_key test_adapter = Some "test-key" /\ api_secret test_adapter = Some "test-secret"
  /\ String.length (signature "test-secret" "x") = 64%nat.
Proof.
  split; [reflexivity|]. split; [reflexivity|].
  destruct (sign_headers test_adapter 0 [] "test-key" "test-secret" eq_refl eq_refl
              ltac:(discriminate) ltac:(discriminate)) as (_ & _ & H).
  exact (proj1 (H "x")).
Defined.

Definition w_query : dict := [("type", JStr "klines"); ("symbol", JStr "btcusdt")].

Lemma build_query_contract_witness :
  _build_query_request w_query
  = Ok (mk_req "GET" EP_kline [("category", JStr "spot"); ("symbol", JStr "BTCUSDT");
                               ("interval", JStr "60"); ("limit", JInt 100)] false)
  /\ dict_get "limit" (params (mk_req "GET" EP_kline [("category", JStr "spot"); ("symbol", JStr "BTCUSDT");
                               ("interval", JStr "60"); ("limit", JInt 100)] false))
     = Some (dict_get_default "limit" w_query (JInt 100)).
Proof.
  assert (Hd : _build_query_request w_query
               = Ok (mk_req "GET" EP_kline [("category", JStr "spot"); ("symbol", JStr "BTCUSDT");
                                            ("interval", JStr "60"); ("limit", JInt 100)] false))
    by reflexivity.
  split; [exact Hd|].
  destruct (build_query_contract w_query) as (_ & _ & H).
  destruct (H _ Hd) as (_ & _ & _ & Hk & _).
  exact (proj2 (Hk eq_refl)).
Defined.

Definition w_order : dict :=
  [("symbol", JStr "ethusdt"); ("side", JStr "buy"); ("quantity", JInt 1);
   ("order_type", JStr "limit"); ("price", JInt 2000)].

Lemma build_order_contract_witness :
  dict_get "symbol" w_order = Some (JStr "ethusdt")
  /\ _build_order_request w_order
     = Ok (mk_req "POST" EP_place_order
             [("category", JStr "spot"); ("symbol", JStr "ETHUSDT"); ("side", JStr "Buy");
              ("orderType", JStr "Limit"); ("qty", JStr "1"); ("price", JStr "2000");
              ("timeInForce", JStr "GTC")] true).
Proof.
  split; [reflexivity|].
  destruct (build_order_contract w_order) as (_ & H & _).
  destruct (H "ethusdt" "buy" (JInt 1) "limit" eq_refl eq_refl eq_refl eq_refl) as (_ & _ & H3).
  exact (H3 (JInt 2000) eq_refl eq_refl).
Defined.

Definition w_market : dict :=
  [("symbol", JStr "btcusdt"); ("side", JStr "sell"); ("quantity", JInt 5);
   ("order_type", JStr "market")].

Lemma build_order_order_type_witness :
  _build_order_request w_market
  = Ok (mk_req "POST" EP_place_order
          [("category", JStr "spot"); ("symbol", JStr "BTCUSDT"); ("side", JStr "Sell");
           ("orderType", JStr "market"); ("qty", JStr "5")] true)
  /\ exists s, JStr "market" = JStr s
     /\ Some (JStr "market") = Some (if String.eqb (upper s) "LIMIT" then JStr "Limit" else JStr s).
Proof.
  assert (Hd : _build_order_request w_market
               = Ok (mk_req "POST" EP_place_order
                       [("category", JStr "spot"); ("symbol", JStr "BTCUSDT"); ("side", JStr "Sell");
                        ("orderType", JStr "market"); ("qty", JStr "5")] true))
    by (vm_compute; reflexivity).
  split; [exact Hd|].
  exact (build_order_order_type w_market _ Hd).
Defined.

Lemma to_native_symbol_upper_witness :
  to_native "ACT.QUERY.LIST" [("symbol", JStr "btcusdt")]
  = Ok (mk_req "GET" EP_open_orders [("category", JStr "spot"); ("symbol", JStr "BTCUSDT")] true)
  /\ exists s, dict_get "symbol" [("symbol", JStr "btcusdt")] = Some (JStr s)
     /\ JStr "BTCUSDT" = JStr (upper s).
Proof.
  assert (Hd : to_native "ACT.QUERY.LIST" [("symbol", JStr "btcusdt")]
               = Ok (mk_req "GET" EP_open_orders
                       [("category", JStr "spot"); ("symbol", JStr "BTCUSDT")] true))
    by reflexivity.
  split; [exact Hd|].
  exact (to_native_symbol_upper _ _ _ (JStr "BTCUSDT") Hd eq_refl).
Defined.

(** * Further properties of the adapter *)

(** ** Helper lemmas *)

Lemma check_credentials_ok (a : adapter) (k s : string) :
  api_key a = Some k -> api_secret a = Some s -> k <> EmptyString -> s <> EmptyString ->
  check_credentials a = Ok (k, s).
Proof.
  intros Hk Hs Hk' Hs'. unfold check_credentials. rewrite Hk, Hs.
  apply String.eqb_neq in Hk', Hs'. now rewrite Hk', Hs'.
Qed.

Lemma sign_ok (b : adapter) (now_ms : Z) (p : dict) (ks : string * string) :
  check_credentials b = Ok ks ->
  (exists h, _sign_get b now_ms p = Ok h) /\ (exists h, _sign_post b now_ms p = Ok h).
Proof.
  intros H. unfold _sign_get, _sign_post. rewrite H. destruct ks. split; eexists; reflexivity.
Qed.

(** What [to_native] does, action by action. *)
Lemma to_native_cases (action : string) (p : dict) :
  (action = "ACT.QUERY.DATA" /\ to_native action p = _build_query_request p)
  \/ (action = "ACT.QUERY.STATUS" /\ to_native action p = _build_status_request p)
  \/ (action = "ACT.TRANSACT.REQUEST" /\ to_native action p = _build_order_request p)
  \/ (action = "ACT.CANCEL" /\ to_native action p = _build_cancel_request p)
  \/ (action = "ACT.QUERY.LIST" /\ to_native action p = _build_open_orders_request p)
  \/ (action = "ACT.QUERY.BALANCE" /\ to_native action p = _build_balance_request p)
  \/ (~ In action supported_actions
      /\ to_native action p
         = Raise (AdapterError ("Unsupported action '" ++ action ++ "'. Supported: "
                                ++ py_str (JArr (map JStr supported_actions))))).
Proof.
  destruct (in_dec string_dec action supported_actions) as [Hin|Hout].
  - simpl in Hin. destruct Hin as [<-|[<-|[<-|[<-|[<-|[<-|[]]]]]]].
    + left; split; reflexivity.
    + right; left; split; reflexivity.
    + do 2 right; left; split; reflexivity.
    + do 3 right; left; split; reflexivity.
    + do 4 right; left; split; reflexivity.
    + do 5 right; left; split; reflexivity.
  - do 6 right. split; [exact Hout|].
    unfold to_native. now rewrite (assoc_get_none _ _ Hout).
Qed.

Ltac unfold_builders H :=
  unfold _build_query_request, _build_order_request, _build_cancel_request,
    _build_status_request, _build_open_orders_request, _build_balance_request,
    dict_get_default, dict_index, py_upper, no_attribute in H.

(** [split_res], also following the exceptions a [res] carries. *)
Ltac split_raise :=
  split_res;
  repeat (match goal with
          | H : Raise _ = Raise _ |- _ => first [discriminate H | injection H as H; subst]
          end; split_res).

Lemma to_native_method (action : string) (p : dict) (d : native_request) :
  to_native action p = Ok d -> method d = "GET" \/ method d = "POST".
Proof.
  intros Hok.
  destruct (to_native_cases action p) as [[_ E]|[[_ E]|[[_ E]|[[_ E]|[[_ E]|[[_ E]|[_ E]]]]]]];
    rewrite E in Hok; clear E; [unfold_builders Hok; split_res; auto .. | discriminate Hok].
Qed.

(** [str_ltb] is a strict total order. *)
Lemma str_ltb_trans (a b c : string) : str_ltb a b = true -> str_ltb b c = true -> str_ltb a c = true.
Proof.
  revert b c. induction a as [|x a IH]; intros [|y b] [|z c]; simpl; try discriminate; auto.
  destruct (Nat.ltb_spec (nat_of_ascii x) (nat_of_ascii y)),
    (Nat.ltb_spec (nat_of_ascii y) (nat_of_ascii x)),
    (Nat.ltb_spec (nat_of_ascii y) (nat_of_ascii z)),
    (Nat.ltb_spec (nat_of_ascii z) (nat_of_ascii y)),
    (Nat.ltb_spec (nat_of_ascii x) (nat_of_ascii z)),
    (Nat.ltb_spec (nat_of_ascii z) (nat_of_ascii x));
    intros; try reflexivity; try discriminate; try lia; eauto.
Qed.

Lemma str_ltb_total (a b : string) : str_ltb a b = false -> str_ltb b a = false -> a = b.
Proof.
  revert b. induction a as [|x a IH]; intros [|y b]; simpl; try discriminate; auto.
  destruct (Nat.ltb_spec (nat_of_ascii x) (nat_of_ascii y)),
    (Nat.ltb_spec (nat_of_ascii y) (nat_of_ascii x)); intros Ha Hb; try discriminate; try lia.
  assert (Hxy : x = y).
  { rewrite <- (ascii_nat_embedding x), <- (ascii_nat_embedding y). f_equal. lia. }
  subst y. f_equal. now apply IH.
Qed.

Lemma key_le_trans (x y z : string * json) : key_le x y -> key_le y z -> key_le x z.
Proof.
  unfold key_le. intros H1 H2.
  destruct (str_ltb (fst z) (fst x)) eqn:E; [|reflexivity]. exfalso.
  destruct (str_ltb (fst x) (fst y)) eqn:Exy.
  - destruct (str_ltb (fst y) (fst z)) eqn:Eyz.
    + pose proof (str_ltb_trans _ _ _ Exy Eyz) as Exz.
      rewrite (str_ltb_asym _ _ Exz) in E. discriminate.
    + pose proof (str_ltb_total _ _ Eyz H2) as Hyz. rewrite <- Hyz in E.
      pose proof (str_ltb_asym _ _ Exy) as F. congruence.
  - pose proof (str_ltb_total _ _ Exy H1) as Hxy. rewrite Hxy in E. congruence.
Qed.

(** Two lists sorted by key, with distinct keys and the same items, are
    equal. *)
Lemma sorted_perm_unique (l1 l2 : dict) :
  StronglySorted key_le l1 -> StronglySorted key_le l2 -> NoDup (map fst l1) ->
  Permutation l1 l2 -> l1 = l2.
Proof.
  revert l2. induction l1 as [|x l1 IH]; intros l2 S1 S2 Hnd HP.
  - now apply Permutation_nil in HP.
  - destruct l2 as [|y l2].
    + apply Permutation_sym, Permutation_nil in HP. discriminate.
    + apply StronglySorted_inv in S1 as [S1 F1]. apply StronglySorted_inv in S2 as [S2 F2].
      simpl in Hnd. apply NoDup_cons_iff in Hnd as [Hx Hnd].
      assert (Hxy : x = y).
      { assert (Hin1 : In x (y :: l2)) by (apply (Permutation_in x HP); now left).
        assert (Hin2 : In y (x :: l1)) by (apply (Permutation_in y (Permutation_sym HP)); now left).
        destruct Hin1 as [->|Hin1]; [reflexivity|].
        destruct Hin2 as [->|Hin2]; [reflexivity|].
        pose proof (proj1 (Forall_forall _ _) F2 x Hin1) as Hyx.
        pose proof (proj1 (Forall_forall _ _) F1 y Hin2) as Hxy.
        unfold key_le in Hyx, Hxy.
        pose proof (str_ltb_total _ _ Hyx Hxy) as Hk.
        exfalso. apply Hx. rewrite Hk. now apply in_map. }
      subst y. f_equal. apply IH; auto. now apply Permutation_cons_inv in HP.
Qed.

(** ** Dispatch *)

(** X1: [to_native] hands each of the six actions to its builder, and its
    final "Unknown operation" error is never raised. *)
Theorem to_native_dispatch (p : dict) :
  to_native "ACT.QUERY.DATA" p = _build_query_request p
  /\ to_native "ACT.QUERY.STATUS" p = _build_status_request p
  /\ to_native "ACT.TRANSACT.REQUEST" p = _build_order_request p
  /\ to_native "ACT.CANCEL" p = _build_cancel_request p
  /\ to_native "ACT.QUERY.LIST" p = _build_open_orders_request p
  /\ to_native "ACT.QUERY.BALANCE" p = _build_balance_request p
  /\ (forall action m, to_native action p <> Raise (AdapterError ("Unknown operation: " ++ m))).
Proof.
  do 6 (split; [reflexivity|]).
  intros action m H.
  destruct (to_native_cases action p) as [[_ E]|[[_ E]|[[_ E]|[[_ E]|[[_ E]|[[_ E]|[_ E]]]]]]];
    rewrite E in H; clear E; [unfold_builders H; split_raise .. | discriminate H].
Qed.

(** X2: every descriptor [to_native] builds is one of eight routes: the
    market-data query is an unsigned GET to the tickers, kline or
    order-book endpoint; the other five actions are signed, with a POST for
    placing and cancelling orders and a GET otherwise. *)
Theorem to_native_route (action : string) (p : dict) (d : native_request)
    (Hok : to_native action p = Ok d) :
  In (action, method d, endpoint d, signed d)
     [("ACT.QUERY.DATA", "GET", EP_tickers, false);
      ("ACT.QUERY.DATA", "GET", EP_kline, false);
      ("ACT.QUERY.DATA", "GET", EP_orderbook, false);
      ("ACT.QUERY.STATUS", "GET", EP_order_detail, true);
      ("ACT.TRANSACT.REQUEST", "POST", EP_place_order, true);
      ("ACT.CANCEL", "POST", EP_cancel_order, true);
      ("ACT.QUERY.LIST", "GET", EP_open_orders, true);
      ("ACT.QUERY.BALANCE", "GET", EP_wallet_balance, true)].
Proof.
  destruct (to_native_cases action p) as [[-> E]|[[-> E]|[[-> E]|[[-> E]|[[-> E]|[[-> E]|[_ E]]]]]]];
    rewrite E in Hok; clear E; [unfold_builders Hok; split_res;
    simpl; repeat (first [left; reflexivity | right]) .. | discriminate Hok].
Qed.

(** X3: a descriptor built by [to_native], passed to [call_api] on an
    adapter holding a non-empty key and secret, makes [call_api] hand
    exactly one request to the session: the descriptor's method, the base
    URL followed by its endpoint, and its parameters. *)
Theorem to_native_call_api (a : adapter) (now_ms : Z) (send : http_call -> res response)
    (action : string) (p : dict) (d : native_request) (k s : string)
    (Hok : to_native action p = Ok d)
    (Hkey : api_key a = Some k) (Hsec : api_secret a = Some s)
    (Hk : k <> EmptyString) (Hs : s <> EmptyString) :
  exists c, snd (fst (call_api a now_ms send d)) = [c]
    /\ call_method c = method d /\ call_url c = base_url a ++ endpoint d
    /\ call_params c = params d.
Proof.
  destruct (ensure_session_keeps a) as (Hk1 & Hs1 & Hb1 & _).
  pose proof (check_credentials_ok (_ensure_session a) k s
                ltac:(congruence) ltac:(congruence) Hk Hs) as Hc.
  destruct (sign_ok (_ensure_session a) now_ms (params d) _ Hc) as [[hg Hg] [hp Hp]].
  unfold call_api, prepare_call. cbv zeta. rewrite Hb1.
  destruct (to_native_method _ _ _ Hok) as [Hm|Hm]; rewrite Hm;
    destruct (signed d); rewrite ?Hg, ?Hp; eexists; split; try reflexivity; repeat split.
Qed.

(** ** What [call_api] does to the adapter and what it raises *)

(** X4: [call_api] keeps the adapter's session if it has one and otherwise
    opens exactly one new session; it changes neither the credentials, the
    base URL, the receive window, the clock offset nor the [connected]
    flag, closes no session, and hands at most one request to the session
    (it never retries). *)
Theorem call_api_state (a : adapter) (now_ms : Z) (send : http_call -> res response)
    (req : native_request) :
  session (fst (fst (call_api a now_ms send req)))
    = Some (match session a with Some s => s | None => next_session a end)
  /\ next_session (fst (fst (call_api a now_ms send req)))
     = (match session a with Some _ => next_session a | None => S (next_session a) end)
  /\ connected (fst (fst (call_api a now_ms send req))) = connected a
  /\ closed (fst (fst (call_api a now_ms send req))) = closed a
  /\ api_key (fst (fst (call_api a now_ms send req))) = api_key a
  /\ api_secret (fst (fst (call_api a now_ms send req))) = api_secret a
  /\ base_url (fst (fst (call_api a now_ms send req))) = base_url a
  /\ recv_window (fst (fst (call_api a now_ms send req))) = recv_window a
  /\ time_offset (fst (fst (call_api a now_ms send req))) = time_offset a
  /\ (List.length (snd (fst (call_api a now_ms send req))) <= 1)%nat.
Proof.
  destruct a as [k s u r o [sid|] c cl n]; unfold call_api; cbv zeta;
    destruct (prepare_call _ now_ms req); cbn; repeat split; auto.
Qed.

(** X5: every exception [call_api] raises is an [AdapterError] or an
    [AdapterConnectionError]: no exception of the session, of
    [resp.json()] or of the body's [.get] escapes untranslated. *)
Theorem call_api_exceptions (a : adapter) (now_ms : Z) (send : http_call -> res response)
    (req : native_request) (e : exc)
    (Hraise : snd (call_api a now_ms send req) = Raise e) :
  exists m, e = AdapterError m \/ e = AdapterConnectionError m.
Proof.
  revert Hraise. unfold call_api. cbv zeta.
  destruct (prepare_call _ now_ms req) as [c|e0];
    [destruct (let* resp := send c in handle_response resp) as [|e0]|]; cbn;
    intros H; try discriminate H; injection H as <-;
    destruct e0; cbn; eauto.
Qed.

(** X6: once the session has answered and the body has parsed as JSON,
    [call_api] never raises a connection error, whatever the body holds: a
    rejection by the exchange or a malformed body is an adapter-level
    error. *)
Theorem call_api_answer_not_connection_error (a : adapter) (now_ms : Z)
    (send : http_call -> res response) (req : native_request) (a' : adapter)
    (cs : list http_call) (out : res json) (c : http_call) (resp : response) (body : json)
    (Hcall : call_api a now_ms send req = (a', cs, out)) (Hsent : In c cs)
    (Hsend : send c = Ok resp) (Hjson : resp_json resp = Ok body) :
  forall m, out <> Raise (AdapterConnectionError m).
Proof.
  intros m. pose proof (call_api_sent _ _ _ _ _ _ _ _ Hcall Hsent) as ->.
  rewrite Hsend. cbn [bind]. unfold handle_response. rewrite Hjson. cbn [bind].
  destruct body as [| | | | |kvs]; cbn; try discriminate.
  destruct (negb (py_eq_int (dict_get_default "retCode" kvs (JInt 0)) 0)); cbn; discriminate.
Qed.

(** X7: how the type of [retCode] decides the outcome, with Python's [!=]:
    a string code, also ["0"], and a [null] code are failures reported as
    [Bybit error <code>: <retMsg>]; [false] equals [0] and counts as
    success, [true] does not. *)
Theorem call_api_retcode_types (a : adapter) (now_ms : Z) (send : http_call -> res response)
    (req : native_request) (a' : adapter) (cs : list http_call) (out : res json)
    (c : http_call) (kvs : dict)
    (Hcall : call_api a now_ms send req = (a', cs, out)) (Hsent : In c cs)
    (Hbody : send c = Ok (mk_response (Ok (JObj kvs)))) :
  (forall s, dict_get "retCode" kvs = Some (JStr s) ->
     out = Raise (AdapterError ("Bybit error " ++ s ++ ": "
                                ++ py_str (dict_get_default "retMsg" kvs (JStr "Unknown error")))))
  /\ (dict_get "retCode" kvs = Some JNull ->
      out = Raise (AdapterError ("Bybit error None: "
                                 ++ py_str (dict_get_default "retMsg" kvs (JStr "Unknown error")))))
  /\ (dict_get "retCode" kvs = Some (JBool true) ->
      out = Raise (AdapterError ("Bybit error True: "
                                 ++ py_str (dict_get_default "retMsg" kvs (JStr "Unknown error")))))
  /\ (dict_get "retCode" kvs = Some (JBool false) ->
      out = Ok (dict_get_default "result" kvs (JObj kvs))).
Proof.
  pose proof (call_api_sent _ _ _ _ _ _ _ _ Hcall Hsent) as ->.
  rewrite Hbody. cbn [bind catch handle_response resp_json py_get].
  unfold dict_get_default.
  repeat split; intros;
    match goal with H : dict_get "retCode" kvs = _ |- _ => rewrite H end; reflexivity.
Qed.

(** X8: an unsigned request needs no credentials: [call_api] sends an
    unsigned GET with no headers and an unsigned POST with only the JSON
    content type, to the base URL followed by the endpoint, with the
    descriptor's parameters. *)
Theorem call_api_unsigned (a : adapter) (now_ms : Z) (send : http_call -> res response)
    (req : native_request) (Hun : signed req = false) :
  (method req = "GET" ->
     snd (fst (call_api a now_ms send req)) = [mk_call "GET" (base_url a ++ endpoint req) (params req) []])
  /\ (method req = "POST" ->
     snd (fst (call_api a now_ms send req))
     = [mk_call "POST" (base_url a ++ endpoint req) (params req) [("Content-Type", "application/json")]]).
Proof.
  destruct (ensure_session_keeps a) as (_ & _ & Hb & _).
  unfold call_api, prepare_call. cbv zeta. rewrite Hun, Hb.
  split; intros Hm; rewrite Hm; reflexivity.
Qed.

(** X9: a descriptor whose method is neither ["GET"] nor ["POST"] (the
    comparison is case-sensitive) sends nothing and raises
    [Unknown HTTP method] unchanged, before any credentials are checked. *)
Theorem call_api_unknown_method (a : adapter) (now_ms : Z) (send : http_call -> res response)
    (req : native_request) (Hget : method req <> "GET") (Hpost : method req <> "POST") :
  call_api a now_ms send req
  = (_ensure_session a, [], Raise (AdapterError ("Unknown HTTP method: " ++ method req))).
Proof.
  apply String.eqb_neq in Hget, Hpost.
  unfold call_api, prepare_call. cbv zeta. rewrite Hget, Hpost. reflexivity.
Qed.

(** ** Request builders *)

(** X10: [_build_cancel_request] checks [symbol] before [order_id]: a
    missing [symbol] raises "Symbol required for order cancellation." (also
    when [order_id] is missing too), a missing [order_id] raises "Order ID
    required for cancellation."; with both present and [symbol] a string it
    builds a signed POST to the cancel endpoint with [category] (default
    ["spot"]), the upper-cased [symbol] and [orderId] as [str(order_id)];
    a non-string [symbol] raises an [AttributeError] from [.upper()]. *)
Theorem build_cancel_contract (p : dict) :
  (dict_get "symbol" p = None ->
     _build_cancel_request p = Raise (AdapterError "Symbol required for order cancellation."))
  /\ (forall v, dict_get "symbol" p = Some v -> dict_get "order_id" p = None ->
       _build_cancel_request p = Raise (AdapterError "Order ID required for cancellation."))
  /\ (forall s oid, dict_get "symbol" p = Some (JStr s) -> dict_get "order_id" p = Some oid ->
       _build_cancel_request p
       = Ok (mk_req "POST" EP_cancel_order
               [("category", dict_get_default "category" p (JStr "spot"));
                ("symbol", JStr (upper s)); ("orderId", JStr (py_str oid))] true))
  /\ (forall v oid, dict_get "symbol" p = Some v -> dict_get "order_id" p = Some oid ->
       (forall s, v <> JStr s) ->
       _build_cancel_request p = Raise (no_attribute v "upper")).
Proof.
  unfold _build_cancel_request. repeat split.
  - intros H. now rewrite H.
  - intros v H1 H2. now rewrite H1, H2.
  - intros s oid H1 H2. now rewrite H1, H2.
  - intros v oid H1 H2 Hv. rewrite H1, H2.
    destruct v; try reflexivity. exfalso. eapply Hv. reflexivity.
Qed.

(** X11: [_build_status_request] makes the same checks in the same order
    ("Symbol required for order status query.", then "Order ID required for
    status query."), and with both present and a string [symbol] builds a
    signed GET to the order-detail endpoint with the same parameters as the
    cancel request: [category] (default ["spot"]), the upper-cased
    [symbol] and [orderId] as [str(order_id)]; a non-string [symbol] raises
    an [AttributeError]. *)
Theorem build_status_contract (p : dict) :
  (dict_get "symbol" p = None ->
     _build_status_request p = Raise (AdapterError "Symbol required for order status query."))
  /\ (forall v, dict_get "symbol" p = Some v -> dict_get "order_id" p = None ->
       _build_status_request p = Raise (AdapterError "Order ID required for status query."))
  /\ (forall s oid, dict_get "symbol" p = Some (JStr s) -> dict_get "order_id" p = Some oid ->
       _build_status_request p
       = Ok (mk_req "GET" EP_order_detail
               [("category", dict_get_default "category" p (JStr "spot"));
                ("symbol", JStr (upper s)); ("orderId", JStr (py_str oid))] true))
  /\ (forall v oid, dict_get "symbol" p = Some v -> dict_get "order_id" p = Some oid ->
       (forall s, v <> JStr s) ->
       _build_status_request p = Raise (no_attribute v "upper")).
Proof.
  unfold _build_status_request. repeat split.
  - intros H. now rewrite H.
  - intros v H1 H2. now rewrite H1, H2.
  - intros s oid H1 H2. now rewrite H1, H2.
  - intros v oid H1 H2 Hv. rewrite H1, H2.
    destruct v; try reflexivity. exfalso. eapply Hv. reflexivity.
Qed.

(** X12: [_build_open_orders_request] never requires a [symbol]: without
    one it builds a signed GET to the open-orders endpoint carrying only
    [category] (default ["spot"]); a string [symbol], also the empty string,
    is added upper-cased (presence is tested, not truthiness); a
    non-string [symbol] raises an [AttributeError]. *)
Theorem build_open_orders_contract (p : dict) :
  (dict_get "symbol" p = None ->
     _build_open_orders_request p
     = Ok (mk_req "GET" EP_open_orders [("category", dict_get_default "category" p (JStr "spot"))] true))
  /\ (forall s, dict_get "symbol" p = Some (JStr s) ->
       _build_open_orders_request p
       = Ok (mk_req "GET" EP_open_orders
               [("category", dict_get_default "category" p (JStr "spot")); ("symbol", JStr (upper s))] true))
  /\ (forall v, dict_get "symbol" p = Some v -> (forall s, v <> JStr s) ->
       _build_open_orders_request p = Raise (no_attribute v "upper")).
Proof.
  unfold _build_open_orders_request. repeat split.
  - intros H. now rewrite H.
  - intros s H. now rewrite H.
  - intros v H Hv. rewrite H.
    destruct v; try reflexivity. exfalso. eapply Hv. reflexivity.
Qed.

(** X13: for the query types ["price"] and ["24h"] (and when [type] is
    absent) [_build_query_request] builds the same unsigned GET to the
    tickers endpoint: its parameters are [category] (default ["spot"]) and,
    when [symbol] is truthy, the upper-cased [symbol]; an absent, [None] or
    empty [symbol] is left out, the other parameters are ignored, and a
    truthy non-string [symbol] raises an [AttributeError]. *)
Theorem build_query_ticker (p : dict)
    (Hty : py_eq_str (dict_get_default "type" p (JStr "price")) "price" = true
           \/ py_eq_str (dict_get_default "type" p (JStr "price")) "24h" = true) :
  (py_truthy (dict_get_default "symbol" p JNull) = false ->
     _build_query_request p
     = Ok (mk_req "GET" EP_tickers [("category", dict_get_default "category" p (JStr "spot"))] false))
  /\ (forall s, dict_get_default "symbol" p JNull = JStr s -> s <> EmptyString ->
       _build_query_request p
       = Ok (mk_req "GET" EP_tickers
               [("category", dict_get_default "category" p (JStr "spot")); ("symbol", JStr (upper s))] false))
  /\ (forall v, dict_get_default "symbol" p JNull = v -> py_truthy v = true -> (forall s, v <> JStr s) ->
       _build_query_request p = Raise (no_attribute v "upper")).
Proof.
  assert (Ht : (py_eq_str (dict_get_default "type" p (JStr "price")) "price"
                || py_eq_str (dict_get_default "type" p (JStr "price")) "24h") = true).
  { destruct Hty as [-> | ->]; [reflexivity | apply orb_true_r]. }
  unfold _build_query_request. cbv zeta. rewrite Ht. repeat split.
  - intros Hs. now rewrite Hs.
  - intros s Hs Hne. rewrite Hs. apply String.eqb_neq in Hne. cbn. now rewrite Hne.
  - intros v Hv Htr Hn. rewrite Hv, Htr.
    destruct v; try reflexivity. exfalso. eapply Hn. reflexivity.
Qed.

(** X14: [_build_order_request] reports the first missing field in the
    order [symbol], [side], [quantity], with the message "Missing required
    field '<field>' for order placement.". *)
Theorem build_order_first_missing (p : dict) :
  (dict_get "symbol" p = None ->
     _build_order_request p
     = Raise (AdapterError "Missing required field 'symbol' for order placement."))
  /\ (forall v, dict_get "symbol" p = Some v -> dict_get "side" p = None ->
       _build_order_request p
       = Raise (AdapterError "Missing required field 'side' for order placement."))
  /\ (forall v w, dict_get "symbol" p = Some v -> dict_get "side" p = Some w ->
       dict_get "quantity" p = None ->
       _build_order_request p
       = Raise (AdapterError "Missing required field 'quantity' for order placement.")).
Proof.
  unfold _build_order_request. simpl check_required. repeat split.
  - intros H. now rewrite H.
  - intros v H1 H2. now rewrite H1, H2.
  - intros v w H1 H2 H3. now rewrite H1, H2, H3.
Qed.

(** ** [connect] and the session lifecycle *)

Lemma raise_for_status_ok (resp : server_response) :
  (sr_status resp < 400)%Z -> raise_for_status resp = None.
Proof.
  intros H. unfold raise_for_status.
  destruct (Z.leb_spec 400 (sr_status resp)); [lia|].
  destruct (Z.leb_spec 500 (sr_status resp)); [lia|]. reflexivity.
Qed.

(** X15: when the server-time request succeeds (status below 400) and the
    body's [result.timeSecond] is truthy with [int(timeSecond) = t],
    [connect] succeeds, sets [connected], opens a new session and sets the
    clock offset to [t * 1000 - now_ms]; every later signing timestamp is
    then the server's time in milliseconds plus the local time elapsed
    since. *)
Theorem connect_clock_offset (a : adapter) (now_ms : Z) (get : http_call -> res server_response)
    (resp : server_response) (kvs rkvs : dict) (ts : json) (t : Z)
    (Hget : get (mk_call "GET" (base_url a ++ EP_server_time) [] []) = Ok resp)
    (Hstatus : (sr_status resp < 400)%Z)
    (Hjson : sr_json resp = Ok (JObj kvs))
    (Hresult : dict_get "result" kvs = Some (JObj rkvs))
    (Hts : dict_get "timeSecond" rkvs = Some ts) (Htruthy : py_truthy ts = true)
    (Hint : py_int ts = Ok t) :
  snd (connect a now_ms get) = Ok tt
  /\ connected (fst (connect a now_ms get)) = true
  /\ session (fst (connect a now_ms get)) = Some (next_session a)
  /\ time_offset (fst (connect a now_ms get)) = (t * 1000 - now_ms)%Z
  /\ (forall now', timestamp (fst (connect a now_ms get)) now' = py_int_str (t * 1000 + (now' - now_ms))).
Proof.
  unfold connect. cbn [base_url]. rewrite Hget. unfold connect_try.
  rewrite (raise_for_status_ok _ Hstatus), Hjson. cbn [bind py_get].
  unfold dict_get_default. rewrite Hresult. cbn [bind py_get].
  unfold dict_get_default. rewrite Hts, Htruthy, Hint.
  cbn. repeat split. intros now'. unfold timestamp. cbn. f_equal. lia.
Qed.

(** X16: when the server-time request succeeds but the body has no
    [result], or its [timeSecond] is absent or falsy, [connect] still
    succeeds and sets [connected], keeping the previous clock offset. *)
Theorem connect_without_server_time (a : adapter) (now_ms : Z)
    (get : http_call -> res server_response) (resp : server_response) (kvs : dict)
    (Hget : get (mk_call "GET" (base_url a ++ EP_server_time) [] []) = Ok resp)
    (Hstatus : (sr_status resp < 400)%Z)
    (Hjson : sr_json resp = Ok (JObj kvs))
    (Hnone : dict_get "result" kvs = None
             \/ exists rkvs, dict_get "result" kvs = Some (JObj rkvs)
                  /\ py_truthy (dict_get_default "timeSecond" rkvs JNull) = false) :
  snd (connect a now_ms get) = Ok tt
  /\ connected (fst (connect a now_ms get)) = true
  /\ time_offset (fst (connect a now_ms get)) = time_offset a.
Proof.
  assert (Hc : connect_try now_ms
                 (get (mk_call "GET" (base_url a ++ EP_server_time) [] [])) = ConnectOk None).
  { rewrite Hget. unfold connect_try.
    rewrite (raise_for_status_ok _ Hstatus), Hjson. cbn [bind py_get].
    destruct Hnone as [Hr | (rkvs & Hr & Hf)]; unfold dict_get_default at 1; rewrite Hr.
    - reflexivity.
    - cbn [bind py_get]. rewrite Hf. reflexivity. }
  unfold connect. cbn [base_url]. rewrite Hc. repeat split.
Qed.

(** X17: [connect] turns a connection failure into "Cannot reach Bybit
    API: ..." and a 4xx or 5xx status into "Bybit API error: ..." carrying
    the [HTTPError] text (status, reason and the response's final URL),
    both as
    [AdapterConnectionError]; whenever [connect] raises, [connected] and
    the clock offset are left as they were. *)
Theorem connect_failures (a : adapter) (now_ms : Z) (get : http_call -> res server_response) :
  (forall m, get (mk_call "GET" (base_url a ++ EP_server_time) [] []) = Raise (ConnectionError m) ->
     snd (connect a now_ms get) = Raise (AdapterConnectionError ("Cannot reach Bybit API: " ++ m)))
  /\ (forall resp, get (mk_call "GET" (base_url a ++ EP_server_time) [] []) = Ok resp ->
       (400 <= sr_status resp < 500)%Z ->
       snd (connect a now_ms get)
       = Raise (AdapterConnectionError ("Bybit API error: " ++ py_int_str (sr_status resp)
                  ++ " Client Error: " ++ sr_reason resp ++ " for url: " ++ sr_url resp)))
  /\ (forall resp, get (mk_call "GET" (base_url a ++ EP_server_time) [] []) = Ok resp ->
       (500 <= sr_status resp < 600)%Z ->
       snd (connect a now_ms get)
       = Raise (AdapterConnectionError ("Bybit API error: " ++ py_int_str (sr_status resp)
                  ++ " Server Error: " ++ sr_reason resp ++ " for url: " ++ sr_url resp)))
  /\ (forall e, snd (connect a now_ms get) = Raise e ->
       connected (fst (connect a now_ms get)) = connected a
       /\ time_offset (fst (connect a now_ms get)) = time_offset a).
Proof.
  unfold connect. cbn [base_url]. split; [|split; [|split]].
  - intros m H. now rewrite H.
  - intros resp H Hs. rewrite H. unfold connect_try, raise_for_status.
    destruct (Z.leb_spec 400 (sr_status resp)); [|lia].
    destruct (Z.ltb_spec (sr_status resp) 500); [|lia]. reflexivity.
  - intros resp H Hs. rewrite H. unfold connect_try, raise_for_status.
    destruct (Z.leb_spec 400 (sr_status resp)); [|lia].
    destruct (Z.ltb_spec (sr_status resp) 500); [lia|].
    destruct (Z.leb_spec 500 (sr_status resp)); [|lia].
    destruct (Z.ltb_spec (sr_status resp) 600); [|lia]. reflexivity.
  - intros e.
    destruct (connect_try _ _) as [off|m|[m|m|m|m|m|m|m]]; cbn; intros H; try discriminate H;
      split; reflexivity.
Qed.

(** X18: [connect] translates nothing else: a read timeout of the
    session, a failure of [resp.json()] other than a connection error, a
    [result] that is not an object (also [null]), and a [timeSecond] string
    that [int()] rejects all propagate as the raw Python exception. *)
Theorem connect_propagates (a : adapter) (now_ms : Z) (get : http_call -> res server_response) :
  (forall m, get (mk_call "GET" (base_url a ++ EP_server_time) [] []) = Raise (TimeoutError m) ->
     snd (connect a now_ms get) = Raise (TimeoutError m))
  /\ (forall resp e, get (mk_call "GET" (base_url a ++ EP_server_time) [] []) = Ok resp ->
       (sr_status resp < 400)%Z -> sr_json resp = Raise e -> (forall m, e <> ConnectionError m) ->
       snd (connect a now_ms get) = Raise e)
  /\ (forall resp kvs v, get (mk_call "GET" (base_url a ++ EP_server_time) [] []) = Ok resp ->
       (sr_status resp < 400)%Z -> sr_json resp = Ok (JObj kvs) ->
       dict_get "result" kvs = Some v -> (forall r, v <> JObj r) ->
       snd (connect a now_ms get) = Raise (no_attribute v "get"))
  /\ (forall resp kvs rkvs s, get (mk_call "GET" (base_url a ++ EP_server_time) [] []) = Ok resp ->
       (sr_status resp < 400)%Z -> sr_json resp = Ok (JObj kvs) ->
       dict_get "result" kvs = Some (JObj rkvs) -> dict_get "timeSecond" rkvs = Some (JStr s) ->
       s <> EmptyString -> parse_int s = None ->
       snd (connect a now_ms get)
       = Raise (OtherError ("invalid literal for int() with base 10: " ++ substring 0 200 (repr_str s)))).
Proof.
  unfold connect. cbn [base_url]. repeat split.
  - intros m H. now rewrite H.
  - intros resp e H Hs Hj He. rewrite H. unfold connect_try.
    rewrite (raise_for_status_ok _ Hs), Hj. cbn.
    destruct e; try reflexivity. exfalso. eapply He. reflexivity.
  - intros resp kvs v H Hs Hj Hr Hv. rewrite H. unfold connect_try.
    rewrite (raise_for_status_ok _ Hs), Hj. cbn [bind py_get].
    unfold dict_get_default at 1. rewrite Hr.
    destruct v; try reflexivity. exfalso. eapply Hv. reflexivity.
  - intros resp kvs rkvs s H Hs Hj Hr Ht Hne Hp. rewrite H. unfold connect_try.
    rewrite (raise_for_status_ok _ Hs), Hj. cbn [bind py_get].
    unfold dict_get_default. rewrite Hr. cbn [bind py_get].
    unfold dict_get_default. rewrite Ht.
    apply String.eqb_neq in Hne. cbn [py_truthy]. rewrite Hne. cbn [negb bind py_int].
    rewrite Hp. reflexivity.
Qed.

(** X19: [connect] always installs a new session without closing the one
    the adapter held: after [connect] and then [disconnect], only the new
    session has been closed. *)
Theorem connect_replaces_session (a : adapter) (now_ms : Z) (get : http_call -> res server_response) :
  session (fst (connect a now_ms get)) = Some (next_session a)
  /\ next_session (fst (connect a now_ms get)) = S (next_session a)
  /\ closed (fst (connect a now_ms get)) = closed a
  /\ closed (disconnect (fst (connect a now_ms get))) = next_session a :: closed a.
Proof.
  unfold connect. cbv zeta.
  destruct (connect_try _ _) as [off|m|[m|m|m|m|m|m|m]]; cbn; repeat split.
Qed.

(** [prepare_call] reads only the credentials, the base URL, the receive
    window and the clock offset of the adapter. *)
Lemma prepare_call_frame (a b : adapter) (now_ms : Z) (req : native_request) :
  api_key a = api_key b -> api_secret a = api_secret b -> base_url a = base_url b ->
  recv_window a = recv_window b -> time_offset a = time_offset b ->
  prepare_call a now_ms req = prepare_call b now_ms req.
Proof.
  destruct a, b; cbn; intros -> -> -> -> ->. reflexivity.
Qed.

(** X20: after [disconnect], [call_api] still goes through: it opens a
    fresh session and sends the same request, with the same outcome, as it
    would have before the [disconnect]; the adapter stays marked as not
    connected. *)
Theorem call_api_after_disconnect (a : adapter) (now_ms : Z) (send : http_call -> res response)
    (req : native_request) :
  session (fst (fst (call_api (disconnect a) now_ms send req))) = Some (next_session a)
  /\ connected (fst (fst (call_api (disconnect a) now_ms send req))) = false
  /\ snd (fst (call_api (disconnect a) now_ms send req)) = snd (fst (call_api a now_ms send req))
  /\ snd (call_api (disconnect a) now_ms send req) = snd (call_api a now_ms send req).
Proof.
  unfold call_api. cbv zeta.
  rewrite (prepare_call_frame (_ensure_session (disconnect a)) (_ensure_session a) now_ms req)
    by (destruct a as [? ? ? ? ? [?|] ? ? ?]; reflexivity).
  destruct (prepare_call (_ensure_session a) now_ms req); repeat split.
Qed.

(** ** Signing *)

(** X21: the GET signature does not depend on the order in which the
    parameters were inserted: two parameter mappings with the same items
    (and, as in a dict, distinct keys) give the same headers. *)
Theorem sign_get_order_independent (a : adapter) (now_ms : Z) (p p' : dict)
    (Hnd : NoDup (map fst p)) (Hperm : Permutation p p') :
  _sign_get a now_ms p = _sign_get a now_ms p'.
Proof.
  assert (Hs : sorted_items p = sorted_items p').
  { apply sorted_perm_unique.
    - apply Sorted_StronglySorted; [intros x y z; apply key_le_trans | apply sorted_items_sorted].
    - apply Sorted_StronglySorted; [intros x y z; apply key_le_trans | apply sorted_items_sorted].
    - apply (Permutation_NoDup (Permutation_map fst (Permutation_sym (sorted_items_perm p)))). exact Hnd.
    - rewrite sorted_items_perm, Hperm. symmetry. apply sorted_items_perm. }
  unfold _sign_get. now rewrite Hs.
Qed.

(** * Instances of the further properties on concrete inputs *)

Definition w_routes : list (string * string * string * bool) :=
  [("ACT.QUERY.DATA", "GET", EP_tickers, false);
   ("ACT.QUERY.DATA", "GET", EP_kline, false);
   ("ACT.QUERY.DATA", "GET", EP_orderbook, false);
   ("ACT.QUERY.STATUS", "GET", EP_order_detail, true);
   ("ACT.TRANSACT.REQUEST", "POST", EP_place_order, true);
   ("ACT.CANCEL", "POST", EP_cancel_order, true);
   ("ACT.QUERY.LIST", "GET", EP_open_orders, true);
   ("ACT.QUERY.BALANCE", "GET", EP_wallet_balance, true)].

Definition w_cancel : native_request :=
  mk_req "POST" EP_cancel_order
    [("category", JStr "spot"); ("symbol", JStr "BTCUSDT"); ("orderId", JStr "7")] true.

Lemma to_native_route_witness :
  to_native "ACT.CANCEL" [("symbol", JStr "btcusdt"); ("order_id", JInt 7)] = Ok w_cancel
  /\ In ("ACT.CANCEL", "POST", EP_cancel_order, true) w_routes.
Proof.
  assert (Hd : to_native "ACT.CANCEL" [("symbol", JStr "btcusdt"); ("order_id", JInt 7)] = Ok w_cancel)
    by (vm_compute; reflexivity).
  split; [exact Hd|].
  exact (to_native_route _ _ _ Hd).
Defined.

Definition w_balance : native_request :=
  mk_req "GET" EP_wallet_balance [("accountType", JStr "UNIFIED")] true.

Lemma to_native_call_api_witness :
  to_native "ACT.QUERY.BALANCE" [] = Ok w_balance
  /\ exists c, snd (fst (call_api test_adapter 0 w_send w_balance)) = [c]
       /\ call_method c = method w_balance
       /\ call_url c = base_url test_adapter ++ endpoint w_balance
       /\ call_params c = params w_balance.
Proof.
  assert (Hd : to_native "ACT.QUERY.BALANCE" [] = Ok w_balance) by reflexivity.
  split; [exact Hd|].
  exact (to_native_call_api test_adapter 0 w_send "ACT.QUERY.BALANCE" [] w_balance
           "test-key" "test-secret" Hd eq_refl eq_refl ltac:(discriminate) ltac:(discriminate)).
Defined.

Definition w_down : http_call -> res response := fun _ => Raise (ConnectionError "Network down").

Lemma call_api_exceptions_witness :
  snd (call_api test_adapter 0 w_down w_req) = Raise (AdapterConnectionError "Cannot reach Bybit: Network down")
  /\ exists m, AdapterConnectionError "Cannot reach Bybit: Network down" = AdapterError m
          \/ AdapterConnectionError "Cannot reach Bybit: Network down" = AdapterConnectionError m.
Proof.
  assert (H : snd (call_api test_adapter 0 w_down w_req)
              = Raise (AdapterConnectionError "Cannot reach Bybit: Network down"))
    by (vm_compute; reflexivity).
  split; [exact H|].
  exact (call_api_exceptions test_adapter 0 w_down w_req _ H).
Defined.

Lemma call_api_answer_not_connection_error_witness :
  call_api test_adapter 0 w_send w_req = (test_adapter, [w_call], Ok (JStr "x"))
  /\ forall m, Ok (JStr "x") <> Raise (AdapterConnectionError m).
Proof.
  assert (Hc : call_api test_adapter 0 w_send w_req = (test_adapter, [w_call], Ok (JStr "x")))
    by (vm_compute; reflexivity).
  split; [exact Hc|].
  exact (call_api_answer_not_connection_error test_adapter 0 w_send w_req test_adapter [w_call]
           (Ok (JStr "x")) w_call (mk_response (Ok (JObj w_body))) (JObj w_body)
           Hc (or_introl eq_refl) eq_refl eq_refl).
Defined.

Definition w_body3 : dict := [("retCode", JStr "0"); ("retMsg", JStr "OK")].
Definition w_send3 : http_call -> res response := fun _ => Ok (mk_response (Ok (JObj w_body3))).

Lemma call_api_retcode_types_witness :
  call_api test_adapter 0 w_send3 w_req
  = (test_adapter, [w_call], Raise (AdapterError "Bybit error 0: OK"))
  /\ @Raise json (AdapterError "Bybit error 0: OK")
     = Raise (AdapterError ("Bybit error " ++ "0" ++ ": "
                            ++ py_str (dict_get_default "retMsg" w_body3 (JStr "Unknown error")))).
Proof.
  assert (Hc : call_api test_adapter 0 w_send3 w_req
               = (test_adapter, [w_call], Raise (AdapterError "Bybit error 0: OK")))
    by (vm_compute; reflexivity).
  split; [exact Hc|].
  destruct (call_api_retcode_types test_adapter 0 w_send3 w_req test_adapter [w_call]
              (Raise (AdapterError "Bybit error 0: OK")) w_call w_body3
              Hc (or_introl eq_refl) eq_refl) as [H _].
  exact (H "0" eq_refl).
Defined.

Lemma call_api_unsigned_witness :
  signed w_req = false
  /\ snd (fst (call_api (new_adapter None None false) 0 w_send w_req))
     = [mk_call "GET" (base_url (new_adapter None None false) ++ endpoint w_req) (params w_req) []].
Proof.
  split; [reflexivity|].
  exact (proj1 (call_api_unsigned (new_adapter None None false) 0 w_send w_req eq_refl) eq_refl).
Defined.

Definition w_put : native_request := mk_req "PUT" EP_tickers [] true.

Lemma call_api_unknown_method_witness :
  "PUT" <> "GET" /\ "PUT" <> "POST"
  /\ call_api test_adapter 0 w_send w_put
     = (_ensure_session test_adapter, [], Raise (AdapterError ("Unknown HTTP method: " ++ "PUT"))).
Proof.
  assert (H1 : method w_put <> "GET") by discriminate.
  assert (H2 : method w_put <> "POST") by discriminate.
  split; [exact H1|]. split; [exact H2|].
  exact (call_api_unknown_method test_adapter 0 w_send w_put H1 H2).
Defined.

Definition w_ticker : dict := [("type", JStr "24h"); ("symbol", JStr EmptyString); ("interval", JStr "5")].

Lemma build_query_ticker_witness :
  py_eq_str (dict_get_default "type" w_ticker (JStr "price")) "24h" = true
  /\ _build_query_request w_ticker = Ok (mk_req "GET" EP_tickers [("category", JStr "spot")] false).
Proof.
  assert (Hty : py_eq_str (dict_get_default "type" w_ticker (JStr "price")) "24h" = true) by reflexivity.
  split; [exact Hty|].
  exact (proj1 (build_query_ticker w_ticker (or_intror Hty)) eq_refl).
Defined.

Definition w_rkvs : dict := [("timeSecond", JStr "1700000000")].
Definition w_skvs : dict := [("retCode", JInt 0); ("result", JObj w_rkvs)].
Definition w_sresp : server_response := mk_server_response 200 "OK" "https://api.bybit.com/v5/market/time" (Ok (JObj w_skvs)).
Definition w_get : http_call -> res server_response := fun _ => Ok w_sresp.

Lemma connect_clock_offset_witness :
  py_int (JStr "1700000000") = Ok 1700000000%Z
  /\ time_offset (fst (connect test_adapter 1699999999000 w_get)) = (1700000000 * 1000 - 1699999999000)%Z.
Proof.
  assert (Hi : py_int (JStr "1700000000") = Ok 1700000000%Z) by reflexivity.
  split; [exact Hi|].
  destruct (connect_clock_offset test_adapter 1699999999000 w_get w_sresp w_skvs w_rkvs
              (JStr "1700000000") 1700000000 eq_refl ltac:(reflexivity) eq_refl eq_refl eq_refl
              eq_refl Hi) as (_ & _ & _ & H & _).
  exact H.
Defined.

Definition w_skvs2 : dict := [("retCode", JInt 0); ("result", JObj [])].
Definition w_get2 : http_call -> res server_response :=
  fun _ => Ok (mk_server_response 200 "OK" "https://api.bybit.com/v5/market/time" (Ok (JObj w_skvs2))).

Lemma connect_without_server_time_witness :
  dict_get "result" w_skvs2 = Some (JObj [])
  /\ connected (fst (connect (new_adapter None None false) 0 w_get2)) = true.
Proof.
  split; [reflexivity|].
  destruct (connect_without_server_time (new_adapter None None false) 0 w_get2
              (mk_server_response 200 "OK" "https://api.bybit.com/v5/market/time" (Ok (JObj w_skvs2))) w_skvs2 eq_refl ltac:(reflexivity)
              eq_refl (or_intror (ex_intro _ [] (conj eq_refl eq_refl)))) as (_ & H & _).
  exact H.
Defined.

Definition w_params : dict := [("symbol", JStr "BTCUSDT"); ("category", JStr "spot")].
Definition w_params' : dict := [("category", JStr "spot"); ("symbol", JStr "BTCUSDT")].

Lemma sign_get_order_independent_witness :
  NoDup (map fst w_params) /\ Permutation w_params w_params'
  /\ _sign_get test_adapter 0 w_params = _sign_get test_adapter 0 w_params'.
Proof.
  assert (Hnd : NoDup (map fst w_params)).
  { constructor; [simpl; intros [H|[]]; discriminate | constructor; [intros []|constructor]]. }
  assert (Hp : Permutation w_params w_params') by apply perm_swap.
  split; [exact Hnd|]. split; [exact Hp|].
  exact (sign_get_order_independent test_adapter 0 w_params w_params' Hnd Hp).
Defined.
